(** * run_gesture_webcam.js: a shallow embedding and its specification

    The program loads a Teachable Machine model and its label list, then,
    on a 5 second interval timer, captures a webcam frame, classifies it and
    logs the top prediction.  This file embeds the program in Rocq:

    - [JSNumber]: the ECMAScript Number operations the program calls
      ([*], [Math.max], strict equality, [toFixed], [ToString], [ToNumber]
      on a string, storing into a [Float32Array]), over IEEE 754 binary64
      as specified by the standard library's [SpecFloat];
    - [JSValue]: the values [JSON.parse] produces, property access and [??];
    - [TypedArray]: the [Float32Array] methods used on the score vector;
    - [Tf]: [predict], as a program over the TensorFlow.js calls it makes;
    - [Runner]: [loadModelAndLabels], [main], and the interval callback as a
      transition system over timer ticks and capture completions. *)

From Stdlib Require Import ZArith List String Ascii Bool Lia.
From Stdlib Require Import Floats.SpecFloat.
Import ListNotations.

Set Warnings "-register-all".
Local Open Scope Z_scope.

(** ** Decimal digits *)

Module Digits.

Definition digit_char (d : Z) : ascii := ascii_of_N (48 + Z.to_N d).

Definition is_digit (c : ascii) : bool :=
  let n := N_of_ascii c in (48 <=? n)%N && (n <=? 57)%N.

Definition digit_value (c : ascii) : Z := Z.of_N (N_of_ascii c) - 48.

(** The digits of [n >= 0], most significant first; ["0"] for [0]. *)
Fixpoint digits_aux (fuel : nat) (n : Z) (acc : list ascii) : list ascii :=
  match fuel with
  | O => acc
  | S fuel' =>
      let acc' := digit_char (n mod 10) :: acc in
      if n <? 10 then acc' else digits_aux fuel' (n / 10) acc'
  end.

Definition decimal_digits (n : Z) : list ascii :=
  digits_aux (S (Z.to_nat (Z.log2 n))) n [].

Definition digits_value (ds : list ascii) : Z :=
  fold_left (fun acc c => 10 * acc + digit_value c) ds 0.

Definition str (cs : list ascii) : string := string_of_list_ascii cs.

(** The decimal rendering of an integral Number below 10^21 in magnitude,
    as [ToString] yields it (array indices, [-1]). *)
Definition sign_str (neg : bool) : string :=
  if neg then "-"%string else ""%string.

Definition Z_toString (i : Z) : string :=
  (sign_str (Z.ltb i 0) ++ str (decimal_digits (Z.abs i)))%string.

End Digits.

(** ** ECMAScript Numbers *)

Module JSNumber.
Import Digits.

(** A Number is an IEEE 754 binary64 datum. *)
Definition number := spec_float.

Definition prec64 : Z := 53.
Definition emax64 : Z := 1024.
Definition prec32 : Z := 24.
Definition emax32 : Z := 128.

Definition NaN : number := S754_nan.
Definition neg_inf : number := S754_infinity true.

Definition is_nan (x : number) : bool :=
  match x with S754_nan => true | _ => false end.

(** [x * y] on Numbers. *)
Definition multiply (x y : number) : number := SFmul prec64 emax64 x y.

(** [x < y], and [x === y] on Numbers ([NaN] differs from itself, the two
    zeros are equal). *)
Definition less_than (x y : number) : bool := SFltb x y.
Definition strict_eq (x y : number) : bool := SFeqb x y.

(** The Number nearest to the positive rational [p / q], ties to even. *)
Definition round_ratio (prec emax : Z) (s : bool) (p q : positive) : number :=
  let '(mz, ez, lz) := SFdiv_core_binary prec emax (Zpos p) 0 (Zpos q) 0 in
  binary_round_aux prec emax s mz ez lz.

(** The Number for the decimal [s * 10^e10] with sign [neg]. *)
Definition of_decimal (neg : bool) (s : Z) (e10 : Z) : number :=
  match s with
  | Zpos p =>
      if 0 <=? e10
      then round_ratio prec64 emax64 neg (p * Z.to_pos (10 ^ e10)) 1
      else round_ratio prec64 emax64 neg p (Z.to_pos (10 ^ (- e10)))
  | _ => S754_zero neg
  end.

Definition of_Z (n : Z) : number :=
  of_decimal (n <? 0) (Z.abs n) 0.

(** Storing a Number into a [Float32Array] element and reading it back:
    rounding to binary32, then the exact binary64 form of that value. *)
Definition fround (x : number) : number :=
  match x with
  | S754_finite s m e =>
      match binary_round prec32 emax32 s m e with
      | S754_finite s' m' e' => binary_round prec64 emax64 s' m' e'
      | y => y
      end
  | _ => x
  end.

(** The exact value of a finite non-zero Number with mantissa [m] and
    exponent [e], as a fraction of positive integers. *)
Definition exact_ratio (m : positive) (e : Z) : Z * Z :=
  if 0 <=? e then (Zpos m * 2 ^ e, 1) else (Zpos m, 2 ^ (- e)).

(** *** Number::toString (radix 10) *)

Fixpoint find_neg_exp (fuel : nat) (p q j : Z) : Z :=
  match fuel with
  | O => j
  | S fuel' => if q <=? p * 10 ^ j then j else find_neg_exp fuel' p q (j + 1)
  end.

(** The [n] with [10^(n-1) <= p/q < 10^n]. *)
Definition decimal_exponent (p q : Z) : Z :=
  if q <=? p then Z.of_nat (List.length (decimal_digits (p / q)))
  else 1 - find_neg_exp 400 p q 1.

Definition rounds_to (x : number) (s e10 : Z) : bool :=
  match x, of_decimal false s e10 with
  | S754_finite _ m e, S754_finite _ m' e' => Pos.eqb m m' && Z.eqb e e'
  | _, _ => false
  end.

(** The [k]-digit decimals [s * 10^(n-k)] that denote [x = p/q]: of the two
    neighbours of [x] the one nearer to it (the even one on a tie). *)
Definition shortest_at (x : number) (p q n0 k : Z) : option (Z * Z) :=
  let P := if n0 <=? k then p * 10 ^ (k - n0) else p in
  let Q := if n0 <=? k then q else q * 10 ^ (n0 - k) in
  let lo := P / Q in
  let hi := lo + 1 in
  let pick_lo :=
    match 2 * (P - lo * Q) ?= Q with
    | Lt => true
    | Gt => false
    | Eq => Z.even lo
    end in
  let norm s := if s =? 10 ^ k then (10 ^ (k - 1), n0 + 1) else (s, n0) in
  match rounds_to x lo (n0 - k), rounds_to x hi (n0 - k) with
  | true, true => Some (norm (if pick_lo then lo else hi))
  | true, false => Some (norm lo)
  | false, true => Some (norm hi)
  | false, false => None
  end.

(** The least [k] with a [k]-digit decimal denoting [x], as [(s, n, k)].
    A binary64 datum never needs more than 17 digits, so the search always
    ends in its [Some] branch. *)
Fixpoint shortest_from (fuel : nat) (x : number) (p q n0 k : Z)
  : Z * Z * Z :=
  match fuel with
  | O => (10 ^ (k - 1), n0, k)
  | S fuel' =>
      match shortest_at x p q n0 k with
      | Some (s, n) => (s, n, k)
      | None => shortest_from fuel' x p q n0 (k + 1)
      end
  end.

Definition shortest_decimal (x : number) (m : positive) (e : Z) : Z * Z * Z :=
  let '(p, q) := exact_ratio m e in
  shortest_from 17 x p q (decimal_exponent p q) 1.

Definition zeros (n : Z) : list ascii := repeat "0"%char (Z.to_nat n).

(** Steps 6 and 7 of Number::toString: the placement of the digits of [s]. *)
Definition format_decimal (s n k : Z) : string :=
  let ds := decimal_digits s in
  if (-5 <=? n) && (n <=? 21) then
    if k <=? n then str (ds ++ zeros (n - k))
    else if 0 <? n then
      str (firstn (Z.to_nat n) ds ++ "."%char :: skipn (Z.to_nat n) ds)
    else str ("0"%char :: "."%char :: zeros (- n) ++ ds)
  else
    let c := if 0 <? n - 1 then "+"%char else "-"%char in
    let ex := decimal_digits (Z.abs (n - 1)) in
    if k =? 1 then str (ds ++ "e"%char :: c :: ex)
    else str (firstn 1 ds ++ "."%char :: skipn 1 ds ++ "e"%char :: c :: ex).

Definition Number_toString (x : number) : string :=
  match x with
  | S754_nan => "NaN"
  | S754_zero _ => "0"
  | S754_infinity s => if s then "-Infinity" else "Infinity"
  | S754_finite s m e =>
      let '(d, n, k) := shortest_decimal (S754_finite false m e) m e in
      (sign_str s ++ format_decimal d n k)%string
  end.

(** *** Number.prototype.toFixed *)

(** Step 11 of toFixed: the integer [n] nearest to [p/q * 10^f] (the larger
    one on a tie), rendered with [f] digits after the point. *)
Definition fixed_point (n : Z) (f : nat) : string :=
  let m := decimal_digits n in
  match f with
  | O => str m
  | _ =>
      let k := List.length m in
      let m := if (k <=? f)%nat then repeat "0"%char (f + 1 - k) ++ m else m in
      let k := if (k <=? f)%nat then (f + 1)%nat else k in
      str (firstn (k - f) m ++ "."%char :: skipn (k - f) m)
  end.

Definition nearest_scaled (p q : Z) (f : nat) : Z :=
  (2 * p * 10 ^ Z.of_nat f + q) / (2 * q).

Definition toFixed (x : number) (f : nat) : string :=
  match x with
  | S754_finite s m e =>
      let '(p, q) := exact_ratio m e in
      if 10 ^ 21 * q <=? p
      then (sign_str s ++ Number_toString (S754_finite false m e))%string
      else (sign_str s ++ fixed_point (nearest_scaled p q f) f)%string
  | S754_zero _ => fixed_point 0 f
  | _ => Number_toString x
  end.

(** *** ToNumber on a String *)

(** StringToNumber, for the grammar of StrDecimalLiteral: an optional sign,
    then [Infinity] or decimal digits with an optional fraction and an
    optional exponent.  The empty string is [+0]; any other text is [NaN].
    (White space trimming and the [0x], [0o], [0b] literals are left out:
    the program applies ToNumber to results of [toFixed] only.)  The decimal
    is rounded to the nearest Number, as V8 does for any number of digits. *)
Fixpoint take_digits (cs : list ascii) : list ascii * list ascii :=
  match cs with
  | c :: rest =>
      if is_digit c
      then let '(ds, tl) := take_digits rest in (c :: ds, tl)
      else ([], cs)
  | [] => ([], [])
  end.

Definition parse_exponent (cs : list ascii) : option Z :=
  match cs with
  | [] => Some 0
  | c :: rest =>
      if (Ascii.eqb c "e" || Ascii.eqb c "E")%bool then
        let '(neg, rest) :=
          match rest with
          | s :: rest' =>
              if Ascii.eqb s "-" then (true, rest')
              else if Ascii.eqb s "+" then (false, rest')
              else (false, rest)
          | [] => (false, rest)
          end in
        match take_digits rest with
        | ((_ :: _) as ds, []) =>
            Some (if neg then - digits_value ds else digits_value ds)
        | _ => None
        end
      else None
  end.

Definition parse_unsigned (neg : bool) (cs : list ascii) : number :=
  if String.eqb (str cs) "Infinity"
  then S754_infinity neg
  else
    let '(ip, rest) := take_digits cs in
    let '(fp, rest) :=
      match rest with
      | c :: rest' =>
          if Ascii.eqb c "." then take_digits rest' else ([], rest)
      | [] => ([], [])
      end in
    match ip, fp with
    | [], [] => NaN
    | _, _ =>
        match parse_exponent rest with
        | Some ex =>
            of_decimal neg (digits_value (ip ++ fp))
                       (ex - Z.of_nat (List.length fp))
        | None => NaN
        end
    end.

Definition StringToNumber (s : string) : number :=
  match list_ascii_of_string s with
  | [] => S754_zero false
  | c :: rest =>
      if Ascii.eqb c "-" then parse_unsigned true rest
      else if Ascii.eqb c "+" then parse_unsigned false rest
      else parse_unsigned false (c :: rest)
  end.

(** *** Math.max *)

Definition is_pos_zero (x : number) : bool :=
  match x with S754_zero false => true | _ => false end.
Definition is_neg_zero (x : number) : bool :=
  match x with S754_zero true => true | _ => false end.

(** Step 4 of Math.max: the running [highest] over the coerced arguments. *)
Fixpoint max_from (highest : number) (args : list number) : number :=
  match args with
  | [] => highest
  | x :: rest =>
      if is_nan x then NaN
      else
        let highest :=
          if is_pos_zero x && is_neg_zero highest then x else highest in
        let highest := if less_than highest x then x else highest in
        max_from highest rest
  end.

Definition Math_max (args : list number) : number := max_from neg_inf args.

End JSNumber.

(** ** Results of calls that may throw *)

Inductive result (E A : Type) : Type :=
| Ok (a : A)
| Throw (e : E).
Arguments Ok {E A} a.
Arguments Throw {E A} e.

Definition bind {E A B} (r : result E A) (k : A -> result E B) : result E B :=
  match r with
  | Ok a => k a
  | Throw e => Throw e
  end.

Notation "x <- r ;; k" := (bind r (fun x => k))
  (at level 61, r at next level, right associativity).

(** ** JavaScript values *)

Module JSValue.
Import Digits JSNumber.

(** The values of the program that are not opaque handles: what
    [JSON.parse] yields, [undefined], and the errors that are thrown. *)
Inductive value : Type :=
| VUndefined
| VNull
| VBool (b : bool)
| VNum (x : number)
| VStr (s : string)
| VArr (elems : list value)
| VObj (props : list (string * value)).

Definition throws (A : Type) : Type := result value A.

Fixpoint lookup (key : string) (props : list (string * value)) : option value :=
  match props with
  | [] => None
  | (k, v) :: rest => if String.eqb k key then Some v else lookup key rest
  end.

(** An error object whose [message] is [msg]. *)
Definition Error (msg : string) : value := VObj [("message"%string, VStr msg)].
Definition TypeError (msg : string) : value := Error msg.

Definition nullish (v : value) : bool :=
  match v with
  | VUndefined | VNull => true
  | _ => false
  end.

(** [a ?? b] *)
Definition coalesce (a b : value) : value := if nullish a then b else a.

Definition ToBoolean (v : value) : bool :=
  match v with
  | VUndefined | VNull => false
  | VBool b => b
  | VNum x =>
      match x with
      | S754_zero _ | S754_nan => false
      | _ => true
      end
  | VStr s => negb (String.eqb s "")
  | VArr _ | VObj _ => true
  end.

(** [a || b] *)
Definition logical_or (a b : value) : value := if ToBoolean a then a else b.

(** ToString, as a template literal applies it to a substitution. *)
Fixpoint ToString (v : value) : string :=
  match v with
  | VUndefined => "undefined"
  | VNull => "null"
  | VBool b => if b then "true" else "false"
  | VNum x => Number_toString x
  | VStr s => s
  | VArr elems =>
      let item e := if nullish e then ""%string else ToString e in
      (fix join (l : list value) : string :=
         match l with
         | [] => ""%string
         | [e] => item e
         | e :: rest => (item e ++ "," ++ join rest)%string
         end) elems
  | VObj _ => "[object Object]"
  end.

(** [o[i]] for an integral Number [i]: the property of [o] whose key is
    the decimal rendering of [i]. *)
Definition get_index (o : value) (i : Z) : throws value :=
  match o with
  | VUndefined =>
      Throw (TypeError ("Cannot read properties of undefined (reading '"
                        ++ Z_toString i ++ "')"))
  | VNull =>
      Throw (TypeError ("Cannot read properties of null (reading '"
                        ++ Z_toString i ++ "')"))
  | VArr elems =>
      Ok (if Z.ltb i 0 then VUndefined
          else match nth_error elems (Z.to_nat i) with
               | Some v => v
               | None => VUndefined
               end)
  | VObj props =>
      Ok (match lookup (Z_toString i) props with
          | Some v => v
          | None => VUndefined
          end)
  | VStr s =>
      Ok (if Z.ltb i 0 then VUndefined
          else match String.get (Z.to_nat i) s with
               | Some c => VStr (String c EmptyString)
               | None => VUndefined
               end)
  | VBool _ | VNum _ => Ok VUndefined
  end.

(** [o.name] for a name that no prototype defines ([labels], [message]). *)
Definition get_named (o : value) (name : string) : throws value :=
  match o with
  | VUndefined =>
      Throw (TypeError ("Cannot read properties of undefined (reading '"
                        ++ name ++ "')"))
  | VNull =>
      Throw (TypeError ("Cannot read properties of null (reading '"
                        ++ name ++ "')"))
  | VObj props =>
      Ok (match lookup name props with
          | Some v => v
          | None => VUndefined
          end)
  | _ => Ok VUndefined
  end.

End JSValue.

(** ** Float32Array *)

Module TypedArray.
Import Digits JSNumber JSValue.

(** A [Float32Array] is the list of its elements, each read as a Number. *)
Definition Float32Array := list number.

(** [Float32Array.of(...)]: every element is rounded to binary32. *)
Definition Float32Array_of (xs : list number) : Float32Array :=
  List.map fround xs.

(** [a[i]]: the element, or [undefined] when [i] is not a valid index. *)
Definition get (a : Float32Array) (i : Z) : option number :=
  if Z.ltb i 0 then None else nth_error a (Z.to_nat i).

(** ToNumber of what [a[i]] yields ([undefined] is [NaN]). *)
Definition ToNumber (v : option number) : number :=
  match v with
  | Some x => x
  | None => NaN
  end.

Fixpoint indexOf_from (a : Float32Array) (searchElement : number) (k : Z) : Z :=
  match a with
  | [] => -1
  | elementK :: rest =>
      if strict_eq searchElement elementK then k
      else indexOf_from rest searchElement (k + 1)
  end.

(** [a.indexOf(searchElement)] *)
Definition indexOf (a : Float32Array) (searchElement : number) : Z :=
  indexOf_from a searchElement 0.

(** [a.map(callbackfn)] for a callback that returns a String: the new
    array is again a [Float32Array], so each mapped value is stored with
    ToNumber and rounded to binary32. *)
Definition map (a : Float32Array) (callbackfn : number -> string) : Float32Array :=
  List.map (fun v => fround (StringToNumber (callbackfn v))) a.

(** [a.join(separator)] *)
Fixpoint join (a : Float32Array) (separator : string) : string :=
  match a with
  | [] => ""
  | [x] => Number_toString x
  | x :: rest => (Number_toString x ++ separator ++ join rest separator)%string
  end.

End TypedArray.

(** ** The TensorFlow.js calls of [predict] *)

Module Tf.
Import JSNumber JSValue TypedArray.

Definition INPUT_SIZE : Z := 224.

Section Predict.

(** Opaque handles of the libraries: an encoded image ([Buffer]), a tensor,
    a loaded model. *)
Variables buffer tensor model : Type.

(** What each TensorFlow.js call returns or throws.  [dataSync] yields a
    [Float32Array]: the output of a layers model is a float32 tensor. *)
Record backend : Type := {
  tf_node_decodeImage : buffer -> Z -> throws tensor;
  tf_image_resizeBilinear : tensor -> Z * Z -> throws tensor;
  tensor_div : tensor -> Z -> throws tensor;
  tensor_expandDims : tensor -> Z -> throws tensor;
  model_predict : model -> tensor -> throws tensor;
  tensor_dataSync : tensor -> throws Float32Array
}.

(** A call made to the library, with its arguments. *)
Inductive call : Type :=
| DecodeImage (contents : buffer) (channels : Z)
| ResizeBilinear (images : tensor) (size : Z * Z)
| Div (a : tensor) (b : Z)
| ExpandDims (x : tensor) (axis : Z)
| Predict (m : model) (x : tensor)
| DataSync (x : tensor).

(** Computations that call the library: the calls made so far are threaded
    through, and a throw ends the computation. *)
Definition tfM (A : Type) : Type := list call -> list call * throws A.

Definition tf_bind {A B} (c : tfM A) (k : A -> tfM B) : tfM B :=
  fun log =>
    match c log with
    | (log', Ok a) => k a log'
    | (log', Throw e) => (log', Throw e)
    end.

Definition invoke {A} (c : call) (r : throws A) : tfM A :=
  fun log => (log ++ [c], r).

Notation "x <~ c ;; k" := (tf_bind c (fun x => k))
  (at level 61, c at next level, right associativity).

Variable be : backend.

(** [tf.tidy(fn)] returns what [fn] returns, and rethrows what it throws. *)
Definition tidy {A} (fn : tfM A) : tfM A := fn.

Definition predict (m : model) (buf : buffer) : tfM Float32Array :=
  tidy (
    image <~ invoke (DecodeImage buf 3) (tf_node_decodeImage be buf 3) ;;
    resized <~ invoke (ResizeBilinear image (INPUT_SIZE, INPUT_SIZE))
                 (tf_image_resizeBilinear be image (INPUT_SIZE, INPUT_SIZE)) ;;
    normalized <~ invoke (Div resized 255) (tensor_div be resized 255) ;;
    batched <~ invoke (ExpandDims normalized 0)
                 (tensor_expandDims be normalized 0) ;;
    logits <~ invoke (Predict m batched) (model_predict be m batched) ;;
    invoke (DataSync logits) (tensor_dataSync be logits)).

(** What [predict] returns or throws. *)
Definition predict_result (m : model) (buf : buffer) : throws Float32Array :=
  snd (predict m buf []).

End Predict.

Arguments tf_node_decodeImage {buffer tensor model} be _ _ : rename.
Arguments tf_image_resizeBilinear {buffer tensor model} be _ _ : rename.
Arguments tensor_div {buffer tensor model} be _ _ : rename.
Arguments tensor_expandDims {buffer tensor model} be _ _ : rename.
Arguments model_predict {buffer tensor model} be _ _ : rename.
Arguments tensor_dataSync {buffer tensor model} be _ : rename.
Arguments DecodeImage {buffer tensor model}.
Arguments ResizeBilinear {buffer tensor model}.
Arguments Div {buffer tensor model}.
Arguments ExpandDims {buffer tensor model}.
Arguments Predict {buffer tensor model}.
Arguments DataSync {buffer tensor model}.
Arguments predict {buffer tensor model} be m buf _.
Arguments predict_result {buffer tensor model} be m buf.

End Tf.

(** ** The runner *)

Module Runner.
Import Digits JSNumber JSValue TypedArray.

Definition CAPTURE_MS : Z := 5000.

(** *** Lines 70-73: from the score vector to the log line *)

(** [scores.indexOf(Math.max(...scores))] *)
Definition topIdx_of (scores : Float32Array) : Z :=
  indexOf scores (Math_max scores).

(** [labels[topIdx] ?? `class_${topIdx}`] *)
Definition label_of (labels : value) (topIdx : Z) : throws value :=
  entry <- get_index labels topIdx ;;
  Ok (coalesce entry (VStr ("class_" ++ Z_toString topIdx))).

(** [(scores[topIdx] * 100).toFixed(1)] *)
Definition confidence_of (scores : Float32Array) (topIdx : Z) : string :=
  toFixed (multiply (ToNumber (get scores topIdx)) (of_Z 100)) 1.

(** [scores.map(v => v.toFixed(2)).join(', ')] *)
Definition scores_text (scores : Float32Array) : string :=
  join (map scores (fun v => toFixed v 2)) ", ".

(** The argument of [console.log]; [now] is [new Date().toISOString()]. *)
Definition report (labels : value) (scores : Float32Array) (now : string)
  : throws string :=
  let topIdx := topIdx_of scores in
  label <- label_of labels topIdx ;;
  let confidence := confidence_of scores topIdx in
  Ok ("[" ++ now ++ "] " ++ ToString label ++ " (" ++ confidence
      ++ "%) | scores=" ++ scores_text scores)%string.

(** *** The process state *)

Record state : Type := {
  running : bool;                 (* the guard flag *)
  awaiting : list nat;            (* cycles suspended at [await captureFrame] *)
  started : nat;                  (* number of cycles begun so far *)
  stdout : list string;           (* arguments of [console.log], in order *)
  stderr : list (list value);     (* arguments of [console.error], in order *)
  unhandled : list value          (* rejections of the callback's promise,
                                     which nothing handles; what Node does
                                     about one depends on its version and
                                     flags, the model records it and goes
                                     on *)
}.

Definition initial : state :=
  {| running := false; awaiting := []; started := 0%nat;
     stdout := []; stderr := []; unhandled := [] |}.

Definition console_log (line : string) (s : state) : state :=
  {| running := running s; awaiting := awaiting s; started := started s;
     stdout := stdout s ++ [line]; stderr := stderr s;
     unhandled := unhandled s |}.

Definition console_error (args : list value) (s : state) : state :=
  {| running := running s; awaiting := awaiting s; started := started s;
     stdout := stdout s; stderr := stderr s ++ [args];
     unhandled := unhandled s |}.

Definition reject_unhandled (reason : value) (s : state) : state :=
  {| running := running s; awaiting := awaiting s; started := started s;
     stdout := stdout s; stderr := stderr s;
     unhandled := unhandled s ++ [reason] |}.

Definition set_running (b : bool) (s : state) : state :=
  {| running := b; awaiting := awaiting s; started := started s;
     stdout := stdout s; stderr := stderr s; unhandled := unhandled s |}.

Definition suspend (cycle : nat) (s : state) : state :=
  {| running := running s; awaiting := cycle :: awaiting s;
     started := S (started s);
     stdout := stdout s; stderr := stderr s; unhandled := unhandled s |}.

Definition resume (cycle : nat) (s : state) : state :=
  {| running := running s;
     awaiting := filter (fun c => negb (Nat.eqb c cycle)) (awaiting s);
     started := started s;
     stdout := stdout s; stderr := stderr s; unhandled := unhandled s |}.

(** The options [createWebcam] passes to [NodeWebcam.create]. *)
Record webcam_options : Type := {
  width : Z;
  height : Z;
  delay : Z;
  saveShots : bool;
  output : string;
  device : bool;
  callbackReturn : string;
  verbose : bool
}.

Section Program.

Variables buffer tensor model : Type.
Variable be : Tf.backend buffer tensor model.

(** *** Startup *)

(** How the calls of startup settle. *)
Record startup : Type := {
  tf_loadLayersModel : throws model;
  fs_readFile : throws string;
  model_settles_first : bool;
  JSON_parse : string -> throws value;
  NodeWebcam_create : webcam_options -> throws unit
}.

(** [Promise.all] of two promises: both values, or the first rejection. *)
Definition Promise_all {A B} (a : throws A) (b : throws B) (a_first : bool)
  : throws (A * B) :=
  match a, b with
  | Ok x, Ok y => Ok (x, y)
  | Throw e, Ok _ => Throw e
  | Ok _, Throw e => Throw e
  | Throw e1, Throw e2 => Throw (if a_first then e1 else e2)
  end.

(** [const { labels = [] } = parsed] *)
Definition destructure_labels (parsed : value) : throws value :=
  match parsed with
  | VUndefined | VNull =>
      Throw (TypeError
        "Cannot destructure property 'labels' of 'JSON.parse(...)'")
  | _ =>
      v <- get_named parsed "labels" ;;
      Ok (match v with
          | VUndefined => VArr []
          | _ => v
          end)
  end.

Definition loadModelAndLabels (env : startup) : throws (model * value) :=
  both <- Promise_all (tf_loadLayersModel env) (fs_readFile env)
                      (model_settles_first env) ;;
  let '(m, metadataRaw) := both in
  parsed <- JSON_parse env metadataRaw ;;
  labels <- destructure_labels parsed ;;
  Ok (m, labels).

Definition createWebcam (env : startup) : throws unit :=
  NodeWebcam_create env
    {| width := Tf.INPUT_SIZE;
       height := Tf.INPUT_SIZE;
       delay := 0;
       saveShots := false;
       output := "png";
       device := false;
       callbackReturn := "buffer";
       verbose := false |}.

(** *** The interval callback

    JavaScript runs a callback to completion: a cycle can be interrupted
    only where it awaits the capture.  A cycle is therefore under way from
    the tick that begins it to the settling of its capture, and what
    follows the [await] (prediction, logging, [catch], [finally]) happens
    in one step. *)

(** What [webcam.capture] does with the request of a cycle. *)
Inductive capture : Type :=
| Called (err : value) (data : buffer)
    (* it invokes the callback with [(err, data)] *)
| Threw (reason : value).
    (* it throws inside the promise executor *)

Inductive event : Type :=
| Tick
    (* the interval timer fires *)
| Settled (cycle : nat) (outcome : capture) (now : string).
    (* the promise awaited by [cycle] settles; [now] is the clock reading
       its log line would carry *)

(** How the promise of [captureFrame] settles. *)
Definition captureFrame (outcome : capture) : throws buffer :=
  match outcome with
  | Called err data => if ToBoolean err then Throw err else Ok data
  | Threw reason => Throw reason
  end.

(** The [try] block after the [await]. *)
Definition attempt (m : model) (labels : value) (settled : throws buffer)
  (now : string) : throws string :=
  frame <- settled ;;
  scores <- Tf.predict_result be m frame ;;
  report labels scores now.

(** [err.message || err] *)
Definition shown_error (err : value) : throws value :=
  message <- get_named err "message" ;;
  Ok (logical_or message err).

(** From the settling of the capture to the end of the callback:
    [try], [catch], [finally]. *)
Definition finish (m : model) (labels : value) (settled : throws buffer)
  (now : string) (s : state) : state :=
  let s' :=
    match attempt m labels settled now with
    | Ok line => console_log line s
    | Throw err =>
        match shown_error err with
        | Ok shown =>
            console_error [VStr "Capture/predict error:"; shown] s
        | Throw err' => reject_unhandled err' s
        end
    end in
  set_running false s'.

Definition step (m : model) (labels : value) (s : state) (ev : event) : state :=
  match ev with
  | Tick =>
      if running s then s
      else suspend (started s) (set_running true s)
  | Settled cycle outcome now =>
      if existsb (Nat.eqb cycle) (awaiting s)
      then finish m labels (captureFrame outcome) now (resume cycle s)
      else s
  end.

Definition run (m : model) (labels : value) (s : state) (evs : list event)
  : state :=
  fold_left (step m labels) evs s.

(** *** [main] and the process *)

Record process : Type := {
  interval : option (model * value * Z); (* what [setInterval] installed *)
  exitCode : option Z;                   (* [process.exitCode], if assigned *)
  loop : state
}.

(** [main]: the process it leaves behind, or what it rejects with. *)
Definition main (env : startup) : throws process :=
  ml <- loadModelAndLabels env ;;
  let '(m, labels) := ml in
  _ <- createWebcam env ;;
  Ok {| interval := Some (m, labels, CAPTURE_MS);
        exitCode := None;
        loop := console_log
                  "Model loaded. Capturing from webcam every 5 seconds..."
                  initial |}.

(** The program: [main().catch(...)]. *)
Definition program (env : startup) : process :=
  match main env with
  | Ok p => p
  | Throw err =>
      {| interval := None;
         exitCode := None;
         loop := console_error [VStr "Failed to start:"; err] initial |}
  end.

(** The process after the given events: only an installed interval
    delivers events to the callback. *)
Definition after (p : process) (evs : list event) : state :=
  match interval p with
  | Some (m, labels, _) => run m labels (loop p) evs
  | None => loop p
  end.

(** Node ends a process that has nothing left to wait for; its status is
    [process.exitCode], or 0 when that was never assigned.  With an
    interval installed the process keeps running. *)
Definition exit_status (p : process) : option Z :=
  match interval p with
  | Some _ => None
  | None =>
      Some match exitCode p with
           | Some c => c
           | None => 0
           end
  end.

End Program.

Arguments tf_loadLayersModel {model} env : rename.
Arguments fs_readFile {model} env : rename.
Arguments model_settles_first {model} env : rename.
Arguments JSON_parse {model} env _ : rename.
Arguments NodeWebcam_create {model} env _ : rename.
Arguments createWebcam {model} env.
Arguments interval {model} p : rename.
Arguments exitCode {model} p : rename.
Arguments loop {model} p : rename.
Arguments Called {buffer} err data.
Arguments Threw {buffer} reason.
Arguments Tick {buffer}.
Arguments Settled {buffer} cycle outcome now.
Arguments captureFrame {buffer} outcome.
Arguments attempt {buffer tensor model} be m labels settled now.
Arguments finish {buffer tensor model} be m labels settled now s.
Arguments step {buffer tensor model} be m labels s ev.
Arguments run {buffer tensor model} be m labels s evs.
Arguments loadModelAndLabels {model} env.
Arguments main {model} env.
Arguments program {model} env.
Arguments after {buffer tensor model} be p evs.
Arguments exit_status {model} p.

End Runner.

(** ** Notions the statements use *)

Module Spec.
Import Digits JSNumber JSValue TypedArray Runner.

(** Every Number other than [NaN] has a place on a line of integer triples
    ordered lexicographically: the infinities at the ends, the two zeros
    together in the middle, finite Numbers by sign, exponent and mantissa. *)
Definition place (x : number) : Z * Z * Z :=
  match x with
  | S754_nan => (3, 0, 0)
  | S754_infinity true => (-2, 0, 0)
  | S754_infinity false => (2, 0, 0)
  | S754_zero _ => (0, 0, 0)
  | S754_finite true m e => (-1, - e, Zneg m)
  | S754_finite false m e => (1, e, Zpos m)
  end.

Definition before (a b : Z * Z * Z) : Prop :=
  let '(a1, a2, a3) := a in
  let '(b1, b2, b3) := b in
  a1 < b1 \/ (a1 = b1 /\ (a2 < b2 \/ (a2 = b2 /\ a3 < b3))).

(** A score vector none of whose entries is [NaN]. *)
Definition no_nan (scores : Float32Array) : Prop :=
  forall x, In x scores -> is_nan x = false.

Definition all_digits (cs : list ascii) : Prop :=
  Forall (fun c => is_digit c = true) cs.

(** A text in fixed notation with [f] fraction digits: an optional minus
    sign, one or more digits, a point, exactly [f] digits. *)
Definition fixed_notation (f : nat) (s : string) : Prop :=
  exists (neg : bool) (ip fp : list ascii),
    ip <> [] /\ all_digits ip /\ all_digits fp /\ List.length fp = f
    /\ s = (sign_str neg ++ str (ip ++ "."%char :: fp))%string.

(** A Number that is finite and less than 10^21 in magnitude. *)
Definition below_1e21 (x : number) : bool :=
  match x with
  | S754_zero _ => true
  | S754_finite _ m e =>
      let '(p, q) := exact_ratio m e in negb (10 ^ 21 * q <=? p)
  | _ => false
  end.

(** The guard: either no cycle is under way and the flag is down, or
    exactly one is and the flag is up. *)
Definition guard_inv (s : state) : Prop :=
  (running s = false /\ awaiting s = [])
  \/ (running s = true /\ exists c, awaiting s = [c]).

Definition is_throw {A : Type} (r : throws A) : Prop := exists e, r = Throw e.

(** The cycle whose capture settles as [outcome] fails with [e]: the
    capture is rejected with it, or [predict] throws it on the frame. *)
Definition cycle_fails {buffer tensor model : Type}
  (be : Tf.backend buffer tensor model) (m : model) (outcome : capture buffer)
  (e : value) : Prop :=
  captureFrame outcome = Throw e
  \/ exists frame,
       captureFrame outcome = Ok frame /\ Tf.predict_result be m frame = Throw e.

(** A score vector with a [NaN] among its entries. *)
Definition has_nan (scores : Float32Array) : Prop :=
  exists x, In x scores /\ is_nan x = true.

(** The timer ticks, and the capture settlements, among some events. *)
Definition is_tick {buffer : Type} (ev : event buffer) : bool :=
  match ev with
  | Tick => true
  | Settled _ _ _ => false
  end.

Definition count_ticks {buffer : Type} (evs : list (event buffer)) : nat :=
  List.length (filter is_tick evs).

Definition count_settled {buffer : Type} (evs : list (event buffer)) : nat :=
  List.length (filter (fun ev => negb (is_tick ev)) evs).

(** The records a process has written: lines on standard output, entries
    on standard error, and rejections nothing handled. *)
Definition records (s : state) : nat :=
  (List.length (stdout s) + List.length (stderr s)
   + List.length (unhandled s))%nat.

End Spec.

(** ** Concrete inputs *)

Module Examples.
Import Digits JSNumber JSValue TypedArray Runner.

(** The Number a decimal literal denotes. *)
Definition num (literal : string) : number := StringToNumber literal.

Definition rps_labels : value :=
  VArr [VStr "rock"; VStr "paper"; VStr "scissors"].
Definition rps_scores : Float32Array :=
  Float32Array_of [num "0.1"; num "0.7"; num "0.2"].
Definition tie_scores : Float32Array :=
  Float32Array_of [num "0.3"; num "0.3"].
Definition nan_scores : Float32Array :=
  Float32Array_of [num "0.5"; NaN].
Definition huge_scores : Float32Array :=
  Float32Array_of [num "1e20"].

(** A backend whose tensors are numbered by pipeline stage and whose model
    outputs [out] whatever the frame. *)
Definition staged_backend (out : Float32Array) : Tf.backend unit nat unit :=
  {| Tf.tf_node_decodeImage := fun _ _ => Ok 1%nat;
     Tf.tf_image_resizeBilinear := fun t _ => Ok (S t);
     Tf.tensor_div := fun t _ => Ok (S t);
     Tf.tensor_expandDims := fun t _ => Ok (S t);
     Tf.model_predict := fun _ t => Ok (S t);
     Tf.tensor_dataSync := fun _ => Ok out |}.

(** A backend that cannot decode any frame. *)
Definition undecodable_backend : Tf.backend unit nat unit :=
  {| Tf.tf_node_decodeImage :=
       fun _ _ => Throw (Error "Expected image (BMP, JPEG, PNG, or GIF)");
     Tf.tf_image_resizeBilinear := fun t _ => Ok (S t);
     Tf.tensor_div := fun t _ => Ok (S t);
     Tf.tensor_expandDims := fun t _ => Ok (S t);
     Tf.model_predict := fun _ t => Ok (S t);
     Tf.tensor_dataSync := fun _ => Ok [] |}.

(** Startup with the given metadata text and its parse. *)
Definition startup_with (raw : string) (parsed : throws value) : startup unit :=
  {| tf_loadLayersModel := Ok tt;
     fs_readFile := Ok raw;
     model_settles_first := true;
     JSON_parse := fun _ => parsed;
     NodeWebcam_create := fun _ => Ok tt |}.

(** Metadata texts; [quoted s] is [s] between double quotes. *)
Definition quoted (s : string) : string :=
  let dq := String (ascii_of_nat 34) EmptyString in (dq ++ s ++ dq)%string.

Definition rps_metadata : string :=
  ("{" ++ quoted "labels" ++ ":[" ++ quoted "rock" ++ "," ++ quoted "paper"
   ++ "," ++ quoted "scissors" ++ "]}")%string.
Definition unlabelled_metadata : string :=
  ("{" ++ quoted "modelName" ++ ":" ++ quoted "gestures" ++ "}")%string.
Definition truncated_metadata : string :=
  ("{" ++ quoted "labels" ++ ":")%string.

Definition rps_startup : startup unit :=
  startup_with rps_metadata (Ok (VObj [("labels"%string, rps_labels)])).

Definition unlabelled_startup : startup unit :=
  startup_with unlabelled_metadata
    (Ok (VObj [("modelName"%string, VStr "gestures")])).

Definition invalid_json_startup : startup unit :=
  startup_with truncated_metadata
    (Throw (Error "Unexpected end of JSON input")).

Definition null_labels_metadata : string :=
  ("{" ++ quoted "labels" ++ ":null}")%string.
Definition bare_array_metadata : string :=
  ("[" ++ quoted "rock" ++ "," ++ quoted "paper" ++ "]")%string.

(** Metadata whose [labels] is [null]. *)
Definition null_labels_startup : startup unit :=
  startup_with null_labels_metadata (Ok (VObj [("labels"%string, VNull)])).

(** Metadata that is a bare array of names. *)
Definition bare_array_startup : startup unit :=
  startup_with bare_array_metadata (Ok (VArr [VStr "rock"; VStr "paper"])).

(** Startup on a machine where the webcam cannot be set up. *)
Definition no_webcam_startup : startup unit :=
  {| tf_loadLayersModel := Ok tt;
     fs_readFile := Ok rps_metadata;
     model_settles_first := true;
     JSON_parse := fun _ => Ok (VObj [("labels"%string, rps_labels)]);
     NodeWebcam_create := fun _ => Throw (Error "No webcam found") |}.

(** A backend whose model throws [null]. *)
Definition null_throwing_backend : Tf.backend unit nat unit :=
  {| Tf.tf_node_decodeImage := fun _ _ => Ok 1%nat;
     Tf.tf_image_resizeBilinear := fun t _ => Ok (S t);
     Tf.tensor_div := fun t _ => Ok (S t);
     Tf.tensor_expandDims := fun t _ => Ok (S t);
     Tf.model_predict := fun _ _ => Throw VNull;
     Tf.tensor_dataSync := fun _ => Ok [] |}.

End Examples.

Import Digits JSNumber JSValue TypedArray Runner Spec Examples.

(** * Properties *)

(** ** Sample evaluations of the Number operations *)

Example toString_samples :
  List.map (fun l => Number_toString (num l))
    ["0.1"; "1e21"; "123456789012345680000"; "5e-324"; "1e-7"; "0.000001";
     "-1234.5678"; "9007199254740993"; "1.7976931348623157e308"; "1e400"]%string
  = ["0.1"; "1e+21"; "123456789012345680000"; "5e-324"; "1e-7"; "0.000001";
     "-1234.5678"; "9007199254740992"; "1.7976931348623157e+308";
     "Infinity"]%string.
Proof. vm_compute. reflexivity. Qed.

Example fround_samples :
  List.map (fun l => Number_toString (fround (num l)))
    ["0.1"; "0.7"; "0.2"; "0.5"; "1e39"; "1e-46"]%string
  = ["0.10000000149011612"; "0.699999988079071"; "0.20000000298023224";
     "0.5"; "Infinity"; "0"]%string.
Proof. vm_compute. reflexivity. Qed.

Example toFixed_samples :
  List.map (fun '(l, f) => toFixed (num l) f)
    [("1.005", 2); ("2.5", 0); ("-2.5", 0); ("-0.04", 1); ("0.25", 1);
     ("0.35", 1); ("10.235", 2); ("1e21", 1); ("-0", 2)]%string%nat
  = ["1.00"; "3"; "-3"; "-0.0"; "0.3"; "0.3"; "10.23"; "1e+21";
     "0.00"]%string.
Proof. vm_compute. reflexivity. Qed.

Example index_toString_samples :
  List.map (fun i => Number_toString (of_Z i)) [-1; 0; 5; 12345]
  = List.map Z_toString [-1; 0; 5; 12345].
Proof. vm_compute. reflexivity. Qed.

Example Math_max_samples :
  Math_max [] = neg_inf
  /\ Math_max [S754_zero true; S754_zero false] = S754_zero false
  /\ Math_max [S754_zero false; S754_zero true] = S754_zero false
  /\ Math_max [num "1"; NaN; num "2"] = NaN.
Proof. repeat split. Qed.

(** ** The order of Numbers *)

Section NumberOrder.

Lemma less_than_place x y :
  is_nan x = false -> is_nan y = false ->
  less_than x y = true <-> before (place x) (place y).
Proof.
  unfold less_than, SFltb, before.
  destruct x as [sx|sx| |sx mx ex], y as [sy|sy| |sy my ey];
    try discriminate; intros _ _;
    try destruct sx; try destruct sy; simpl;
    try (split; [discriminate | lia]);
    try (split; [lia | reflexivity]).
  - rewrite Pos.compare_cont_spec. simpl.
    destruct (Z.compare_spec ex ey), (Pos.compare_spec mx my); simpl;
      split; try discriminate; try reflexivity; lia.
  - rewrite Pos.compare_cont_spec. simpl.
    destruct (Z.compare_spec ex ey), (Pos.compare_spec mx my); simpl;
      split; try discriminate; try reflexivity; lia.
Qed.

Lemma strict_eq_place x y :
  is_nan x = false -> is_nan y = false ->
  strict_eq x y = true <-> place x = place y.
Proof.
  unfold strict_eq, SFeqb.
  destruct x as [sx|sx| |sx mx ex], y as [sy|sy| |sy my ey];
    try discriminate; intros _ _;
    try destruct sx; try destruct sy; simpl;
    try (split; [discriminate | congruence]);
    try (split; [congruence | reflexivity]).
  - rewrite Pos.compare_cont_spec. simpl.
    destruct (Z.compare_spec ex ey), (Pos.compare_spec mx my); simpl;
      split; try discriminate; try reflexivity; intros Hp;
      try (injection Hp; intros); subst; try lia; try reflexivity.
  - rewrite Pos.compare_cont_spec. simpl.
    destruct (Z.compare_spec ex ey), (Pos.compare_spec mx my); simpl;
      split; try discriminate; try reflexivity; intros Hp;
      try (injection Hp; intros); subst; try lia; try reflexivity.
Qed.

Lemma less_than_false_place x y :
  is_nan x = false -> is_nan y = false ->
  less_than x y = false <-> ~ before (place x) (place y).
Proof.
  intros Hx Hy. rewrite <- (less_than_place x y Hx Hy).
  destruct (less_than x y); split; intros; try congruence; tauto.
Qed.

Lemma before_irrefl a : ~ before a a.
Proof. destruct a as [[a1 a2] a3]. unfold before. lia. Qed.

Lemma before_trans a b c : before a b -> before b c -> before a c.
Proof.
  destruct a as [[a1 a2] a3], b as [[b1 b2] b3], c as [[c1 c2] c3].
  unfold before. lia.
Qed.

Lemma before_total a b : before a b \/ a = b \/ before b a.
Proof.
  destruct a as [[a1 a2] a3], b as [[b1 b2] b3]. unfold before.
  destruct (Z.lt_trichotomy a1 b1) as [?|[?|?]];
    destruct (Z.lt_trichotomy a2 b2) as [?|[?|?]];
    destruct (Z.lt_trichotomy a3 b3) as [?|[?|?]];
    subst; try lia; auto.
Qed.

Lemma not_before_trans a b c : ~ before a b -> ~ before b c -> ~ before a c.
Proof.
  destruct a as [[a1 a2] a3], b as [[b1 b2] b3], c as [[c1 c2] c3].
  unfold before. lia.
Qed.

End NumberOrder.

(** ** [Math.max] and [indexOf] *)

Section TopIndex.

(** [Math.max] ends on a Number that nothing it has seen exceeds. *)
Lemma max_from_spec (args : list number) : forall highest,
  is_nan highest = false -> no_nan args ->
  let M := max_from highest args in
  is_nan M = false
  /\ (M = highest \/ In M args)
  /\ ~ before (place M) (place highest)
  /\ (forall x, In x args -> ~ before (place M) (place x)).
Proof.
  induction args as [|x rest IH]; intros highest Hh Hn; simpl.
  - repeat split; auto using before_irrefl.
  - assert (Hx : is_nan x = false) by (apply Hn; left; reflexivity).
    assert (Hrest : no_nan rest) by (intros y Hy; apply Hn; right; exact Hy).
    rewrite Hx.
    set (h1 := if is_pos_zero x && is_neg_zero highest then x else highest).
    assert (Hh1 : is_nan h1 = false /\ place h1 = place highest
                  /\ (h1 = highest \/ h1 = x)).
    { unfold h1. destruct x as [[|]| | |], highest as [[|]| | |];
        simpl; auto. }
    destruct Hh1 as (Hh1n & Hh1p & Hh1e).
    set (h2 := if less_than h1 x then x else h1).
    assert (Hh2 : is_nan h2 = false
                  /\ ~ before (place h2) (place highest)
                  /\ ~ before (place h2) (place x)
                  /\ (h2 = highest \/ h2 = x)).
    { unfold h2. destruct (less_than h1 x) eqn:E.
      - apply less_than_place in E; auto. rewrite Hh1p in E.
        repeat split; auto using before_irrefl.
        intros B. exact (before_irrefl _ (before_trans _ _ _ B E)).
      - apply less_than_false_place in E; auto. rewrite <- Hh1p.
        repeat split; auto using before_irrefl. }
    destruct Hh2 as (Hh2n & Hh2h & Hh2x & Hh2e).
    destruct (IH h2 Hh2n Hrest) as (HMn & HMe & HMh & HMr).
    repeat split; auto.
    + destruct HMe as [->|HI]; [destruct Hh2e as [->| ->]|]; auto.
    + eapply not_before_trans; eauto.
    + intros y [<-|Hy]; [eapply not_before_trans; eauto | auto].
Qed.

(** [indexOf] answers [-1] when no element is strictly equal to the one
    sought, and otherwise the first index of such an element. *)
Lemma indexOf_from_spec (a : Float32Array) (s : number) : forall k,
  (indexOf_from a s k = -1 /\ forall y, In y a -> strict_eq s y = false)
  \/ (exists i m,
        indexOf_from a s k = k + Z.of_nat i
        /\ nth_error a i = Some m
        /\ strict_eq s m = true
        /\ forall j y, (j < i)%nat -> nth_error a j = Some y ->
                       strict_eq s y = false).
Proof.
  induction a as [|x rest IH]; intros k; simpl.
  - left. split; [reflexivity | intros y []].
  - destruct (strict_eq s x) eqn:E.
    + right. exists 0%nat, x. repeat split; auto; [lia | intros; lia].
    + destruct (IH (k + 1)) as [[H1 H2] | (i & m & H1 & H2 & H3 & H4)].
      * left. split; auto. intros y [<-|Hy]; auto.
      * right. exists (S i), m. repeat split; auto; [lia|].
        intros [|j] y Hj Hy; simpl in Hy.
        -- congruence.
        -- apply (H4 j); auto; lia.
Qed.

(** On a non-empty score vector without [NaN], [topIdx] is the first index
    whose score nothing exceeds. *)
Lemma topIdx_first_max (scores : Float32Array) :
  scores <> [] -> no_nan scores ->
  exists (i : nat) (top : number),
    topIdx_of scores = Z.of_nat i
    /\ nth_error scores i = Some top
    /\ (forall j y, nth_error scores j = Some y -> less_than top y = false)
    /\ (forall j y, (j < i)%nat -> nth_error scores j = Some y ->
                    less_than y top = true).
Proof.
  intros Hne Hn. unfold topIdx_of, Math_max, indexOf.
  destruct (max_from_spec scores neg_inf eq_refl Hn) as (HMn & HMe & _ & HMr).
  set (M := max_from neg_inf scores) in *.
  assert (HM : exists y, In y scores /\ place y = place M).
  { destruct HMe as [E|HI]; [|exists M; auto].
    destruct scores as [|x rest]; [congruence|].
    exists x. split; [left; reflexivity|].
    assert (Hx : is_nan x = false) by (apply Hn; left; reflexivity).
    specialize (HMr x (or_introl eq_refl)). rewrite E in *.
    destruct x as [|[|]| |[|] ? ?]; simpl in *; try discriminate;
      try reflexivity; exfalso; apply HMr; lia. }
  destruct HM as (y0 & Hy0 & Hp0).
  destruct (indexOf_from_spec scores M 0)
    as [[_ H2] | (i & top & H1 & H2 & H3 & H4)].
  - specialize (H2 y0 Hy0).
    assert (strict_eq M y0 = true) by (apply strict_eq_place; auto).
    congruence.
  - exists i, top.
    assert (Ht : is_nan top = false)
      by (apply Hn; eapply nth_error_In; eauto).
    apply strict_eq_place in H3; auto.
    repeat split; auto.
    + intros j y Hy.
      assert (Hyn : is_nan y = false)
        by (apply Hn; eapply nth_error_In; eauto).
      apply less_than_false_place; auto. rewrite <- H3.
      apply HMr. eapply nth_error_In; eauto.
    + intros j y Hj Hy.
      assert (Hyn : is_nan y = false)
        by (apply Hn; eapply nth_error_In; eauto).
      apply less_than_place; auto. rewrite <- H3.
      destruct (before_total (place y) (place M)) as [B|[B|B]]; auto.
      * assert (strict_eq M y = true) by (apply strict_eq_place; auto).
        pose proof (H4 j y Hj Hy). congruence.
      * exfalso. apply (HMr y); auto. eapply nth_error_In; eauto.
Qed.

End TopIndex.

(** ** Decimal digits and the notation of [toFixed] *)

Section FixedNotation.

Lemma digit_char_spec d :
  0 <= d < 10 -> is_digit (digit_char d) = true /\ digit_value (digit_char d) = d.
Proof.
  intros H.
  assert (C : d = 0 \/ d = 1 \/ d = 2 \/ d = 3 \/ d = 4 \/ d = 5 \/ d = 6
              \/ d = 7 \/ d = 8 \/ d = 9) by lia.
  repeat (destruct C as [-> | C]; [split; reflexivity|]).
  subst. split; reflexivity.
Qed.

Lemma digits_aux_all_digits fuel : forall n acc,
  all_digits acc -> all_digits (digits_aux fuel n acc).
Proof.
  induction fuel as [|fuel IH]; intros n acc Hacc; simpl; auto.
  assert (Hd : all_digits (digit_char (n mod 10) :: acc)).
  { constructor; auto. apply digit_char_spec. apply Z.mod_pos_bound. lia. }
  destruct (n <? 10); auto.
Qed.

Lemma digits_aux_length fuel : forall n acc,
  (List.length acc <= List.length (digits_aux fuel n acc))%nat.
Proof.
  induction fuel as [|fuel IH]; intros n acc; simpl; auto.
  destruct (n <? 10); simpl; [lia|].
  specialize (IH (n / 10) (digit_char (n mod 10) :: acc)). simpl in IH. lia.
Qed.

Lemma decimal_digits_all_digits n : all_digits (decimal_digits n).
Proof. apply digits_aux_all_digits. constructor. Qed.

Lemma decimal_digits_nonempty n : (1 <= List.length (decimal_digits n))%nat.
Proof.
  unfold decimal_digits. simpl.
  destruct (n <? 10); simpl; [lia|].
  pose proof (digits_aux_length (Z.to_nat (Z.log2 n)) (n / 10)
                [digit_char (n mod 10)]) as H.
  simpl in H. exact H.
Qed.

(** The digits read back give the number: nothing is lost for want of fuel. *)
Lemma fold_digits_shift (ds : list ascii) : forall a,
  fold_left (fun acc c => 10 * acc + digit_value c) ds a
  = a * 10 ^ Z.of_nat (List.length ds) + digits_value ds.
Proof.
  unfold digits_value.
  induction ds as [|c ds IH]; intros a; cbn [fold_left].
  - simpl. lia.
  - rewrite IH, (IH (10 * 0 + digit_value c)).
    change (List.length (c :: ds)) with (S (List.length ds)).
    rewrite Nat2Z.inj_succ, Z.pow_succ_r by lia. lia.
Qed.

Lemma digits_aux_value fuel : forall n acc,
  0 <= n < 2 ^ Z.of_nat fuel ->
  digits_value (digits_aux fuel n acc)
  = n * 10 ^ Z.of_nat (List.length acc) + digits_value acc.
Proof.
  induction fuel as [|fuel IH]; intros n acc Hn.
  - simpl in *. assert (n = 0) by lia. subst. lia.
  - rewrite Nat2Z.inj_succ, Z.pow_succ_r in Hn by lia.
    assert (Hd : digits_value (digit_char (n mod 10) :: acc)
                 = (n mod 10) * 10 ^ Z.of_nat (List.length acc)
                   + digits_value acc).
    { unfold digits_value at 1. cbn [fold_left].
      rewrite fold_digits_shift.
      destruct (digit_char_spec (n mod 10)) as [_ ->];
        [apply Z.mod_pos_bound; lia | lia]. }
    simpl. destruct (Z.ltb_spec n 10) as [L|L].
    + rewrite Hd, Z.mod_small by lia. reflexivity.
    + rewrite IH.
      * rewrite Hd.
        change (List.length (digit_char (n mod 10) :: acc))
          with (S (List.length acc)).
        rewrite Nat2Z.inj_succ, Z.pow_succ_r by lia.
        pose proof (Z.div_mod n 10 ltac:(lia)). nia.
      * split; [apply Z.div_pos; lia|].
        apply Z.div_lt_upper_bound; lia.
Qed.

Lemma decimal_digits_value n : 0 <= n -> digits_value (decimal_digits n) = n.
Proof.
  intros Hn. unfold decimal_digits. rewrite digits_aux_value.
  - simpl. unfold digits_value. simpl. lia.
  - split; auto. rewrite Nat2Z.inj_succ.
    destruct (Z.eq_dec n 0) as [->|Hz]; [simpl; lia|].
    rewrite Z2Nat.id by apply Z.log2_nonneg.
    apply Z.log2_spec. lia.
Qed.

Lemma fixed_point_notation n f :
  (0 < f)%nat ->
  exists ip fp : list ascii,
    ip <> [] /\ all_digits ip /\ all_digits fp /\ List.length fp = f
    /\ fixed_point n f = str (ip ++ "."%char :: fp).
Proof.
  intros Hf. unfold fixed_point.
  destruct f as [|f']; [lia|]. set (f := S f') in *.
  pose proof (decimal_digits_nonempty n) as Hlen.
  pose proof (decimal_digits_all_digits n) as Hall.
  set (m := decimal_digits n) in *.
  set (k0 := List.length m) in *.
  set (m' := if (k0 <=? f)%nat then repeat "0"%char (f + 1 - k0) ++ m else m).
  set (k := if (k0 <=? f)%nat then (f + 1)%nat else k0).
  assert (Hk : List.length m' = k /\ (f < k)%nat /\ all_digits m').
  { unfold m', k. destruct (Nat.leb_spec k0 f).
    - rewrite length_app, repeat_length. repeat split; try lia.
      apply Forall_app. split; auto.
      apply Forall_forall. intros c Hc. apply repeat_spec in Hc. subst.
      reflexivity.
    - repeat split; auto; lia. }
  destruct Hk as (Hk1 & Hk2 & Hk3).
  exists (firstn (k - f) m'), (skipn (k - f) m').
  rewrite <- (firstn_skipn (k - f) m') in Hk3.
  apply Forall_app in Hk3. destruct Hk3 as [Hip Hfp].
  repeat split; auto.
  - intros E. apply (f_equal (@List.length ascii)) in E.
    rewrite length_firstn in E. simpl in E. lia.
  - rewrite length_skipn. lia.
Qed.

Lemma toFixed_notation x f :
  (0 < f)%nat -> below_1e21 x = true -> fixed_notation f (toFixed x f).
Proof.
  intros Hf Hx. unfold toFixed.
  destruct x as [s|s| |s m e]; try discriminate.
  - destruct (fixed_point_notation 0 f Hf) as (ip & fp & H1 & H2 & H3 & H4 & H5).
    exists false, ip, fp. rewrite H5. repeat split; auto.
  - unfold below_1e21 in Hx. destruct (exact_ratio m e) as [p q].
    destruct (10 ^ 21 * q <=? p); [discriminate|].
    destruct (fixed_point_notation (nearest_scaled p q f) f Hf)
      as (ip & fp & H1 & H2 & H3 & H4 & H5).
    exists s, ip, fp. rewrite H5. repeat split; auto.
Qed.

End FixedNotation.

(** ** The guard of the interval callback *)

Section Scheduler.

Context {buffer tensor model : Type}.
Variable be : Tf.backend buffer tensor model.

Lemma finish_fields (m : model) labels settled now s :
  let s' := finish be m labels settled now s in
  running s' = false /\ awaiting s' = awaiting s /\ started s' = started s.
Proof.
  unfold finish.
  destruct (attempt be m labels settled now) as [line|err];
    [|destruct (shown_error err)]; simpl; auto.
Qed.

Lemma awaiting_one_resume c c' s :
  awaiting s = [c'] -> existsb (Nat.eqb c) (awaiting s) = true ->
  c = c' /\ awaiting (resume c s) = [].
Proof.
  intros E H. rewrite E in H. simpl in H. rewrite orb_false_r in H.
  apply Nat.eqb_eq in H. subst c'. split; auto.
  unfold resume. simpl. rewrite E. simpl. rewrite Nat.eqb_refl. reflexivity.
Qed.

Lemma step_guard_inv (m : model) labels s ev :
  guard_inv s -> guard_inv (step be m labels s ev).
Proof.
  intros [[Hr Ha] | [Hr [c Ha]]]; destruct ev as [|c0 outcome now]; simpl.
  - rewrite Hr. right. simpl. split; auto. exists (started s).
    rewrite Ha. reflexivity.
  - rewrite Ha. simpl. left. auto.
  - rewrite Hr. right. eauto.
  - destruct (existsb (Nat.eqb c0) (awaiting s)) eqn:E.
    + destruct (awaiting_one_resume c0 c s Ha E) as [-> Hres].
      destruct (finish_fields m labels (captureFrame outcome) now (resume c s))
        as (F1 & F2 & _).
      left. split; auto. rewrite F2. exact Hres.
    + right. eauto.
Qed.

Lemma run_guard_inv (m : model) labels evs : forall s,
  guard_inv s -> guard_inv (run be m labels s evs).
Proof.
  induction evs as [|ev evs IH]; intros s H; simpl; auto.
  apply IH, step_guard_inv, H.
Qed.

(** What the guard grants in a state that satisfies the invariant. *)
Lemma guard_inv_facts (m : model) labels s :
  guard_inv s ->
  (List.length (awaiting s) <= 1)%nat
  /\ (running s = true <-> awaiting s <> [])
  /\ (running s = true -> step be m labels s Tick = s)
  /\ (forall c outcome now,
        In c (awaiting s) ->
        let s' := step be m labels s (Settled c outcome now) in
        running s' = false /\ awaiting s' = [] /\ started s' = started s).
Proof.
  intros H. split; [|split; [|split]].
  - destruct H as [[_ ->] | [_ [c ->]]]; simpl; lia.
  - destruct H as [[Hr Ha] | [Hr [c Ha]]]; rewrite Ha, Hr;
      split; congruence.
  - intros Hr. simpl. rewrite Hr. reflexivity.
  - intros c outcome now Hin.
    destruct H as [[_ Ha] | [_ [c' Ha]]]; rewrite Ha in Hin;
      [destruct Hin|].
    destruct Hin as [<-|[]].
    unfold step. rewrite Ha. cbn [existsb]. rewrite Nat.eqb_refl.
    cbn [orb].
    destruct (finish_fields m labels (captureFrame outcome) now (resume c' s))
      as (F1 & F2 & F3).
    cbv zeta. rewrite F1, F2, F3. repeat split.
    unfold resume. cbn [awaiting]. rewrite Ha. cbn [filter].
    rewrite Nat.eqb_refl. reflexivity.
Qed.

Lemma program_loop_idle (env : startup model) :
  running (loop (program env)) = false /\ awaiting (loop (program env)) = [].
Proof.
  unfold program, main.
  destruct (loadModelAndLabels env) as [[m0 labels0]|err]; simpl; auto.
  destruct (createWebcam env); simpl; auto.
Qed.

Lemma program_guard_inv (env : startup model) : guard_inv (loop (program env)).
Proof. left. apply program_loop_idle. Qed.

Lemma after_guard_inv (env : startup model) evs :
  guard_inv (after be (program env) evs).
Proof.
  unfold after. destruct (interval (program env)) as [[[m0 l0] ms]|] eqn:E.
  - apply run_guard_inv, program_guard_inv.
  - apply program_guard_inv.
Qed.

Lemma after_snoc (p : process model) m0 l0 ms evs ev :
  interval p = Some (m0, l0, ms) ->
  after be p (evs ++ [ev]) = step be m0 l0 (after be p evs) ev.
Proof.
  intros E. unfold after. rewrite E. unfold run. rewrite fold_left_app.
  reflexivity.
Qed.

Lemma after_none (p : process model) evs :
  interval p = None -> after be p evs = loop p.
Proof. intros E. unfold after. rewrite E. reflexivity. Qed.

(** The errors of a cycle *)

Lemma truthy_not_nullish v : ToBoolean v = true -> nullish v = false.
Proof. destruct v; simpl; congruence. Qed.

(** A rejection that comes from the callback is a truthy value. *)
Lemma called_rejection_truthy err (data : buffer) e :
  captureFrame (Called err data) = Throw e -> nullish e = false.
Proof.
  simpl. destruct (ToBoolean err) eqn:E; [|discriminate].
  intros H. injection H as <-. apply truthy_not_nullish, E.
Qed.

Lemma shown_error_defined e :
  nullish e = false ->
  exists shown, shown_error e = Ok shown
    /\ (forall props msg,
          e = VObj props -> lookup "message" props = Some (VStr msg) ->
          msg <> ""%string -> shown = VStr msg).
Proof.
  intros H. unfold shown_error.
  destruct e; try discriminate; simpl; eexists; (split; [reflexivity|]);
    intros props0 msg E; try discriminate.
  injection E as ->. intros Hl Hm. rewrite Hl.
  unfold logical_or. simpl.
  destruct (String.eqb_spec msg ""); [contradiction | reflexivity].
Qed.

Lemma attempt_fails (m : model) labels outcome now e :
  cycle_fails be m outcome e ->
  attempt be m labels (captureFrame outcome) now = Throw e.
Proof.
  unfold attempt. intros [H | (frame & H & Hp)]; rewrite H; simpl; auto.
  rewrite Hp. reflexivity.
Qed.

Lemma loadModelAndLabels_fails (env : startup model) :
  is_throw (tf_loadLayersModel env)
  \/ is_throw (fs_readFile env)
  \/ (exists raw, fs_readFile env = Ok raw /\ is_throw (JSON_parse env raw)) ->
  is_throw (loadModelAndLabels env).
Proof.
  unfold loadModelAndLabels, Promise_all, is_throw.
  intros [[e H] | [[e H] | (raw & Hr & e & H)]].
  - rewrite H. destruct (fs_readFile env); simpl; eauto.
  - rewrite H. destruct (tf_loadLayersModel env); simpl; eauto.
  - rewrite Hr. destruct (tf_loadLayersModel env); simpl; eauto.
    rewrite H. simpl. eauto.
Qed.

(** ** The claims about the scheduler, startup and the pipeline *)

(** C1: the guard invariant.  Whatever sequence of timer ticks and capture
    settlements the process has seen since startup, at most one cycle is
    under way, and the flag is up exactly when one is; a tick that fires
    while the flag is up leaves the state as it was (no second cycle, and
    nothing queued); and when the cycle under way ends, however its
    capture settled and whatever [predict] did, the flag is down again
    and no cycle is under way. *)
Theorem C1_guard_invariant (env : startup model) (evs : list (event buffer)) :
  let p := program env in
  let s := after be p evs in
  (List.length (awaiting s) <= 1)%nat
  /\ (running s = true <-> awaiting s <> [])
  /\ (running s = true -> after be p (evs ++ [Tick]) = s)
  /\ (forall c outcome now,
        In c (awaiting s) ->
        let s' := after be p (evs ++ [Settled c outcome now]) in
        running s' = false /\ awaiting s' = [] /\ started s' = started s).
Proof.
  intros p s.
  pose proof (after_guard_inv env evs) as G. fold p s in G.
  destruct (interval p) as [[[m0 l0] ms]|] eqn:E.
  - destruct (guard_inv_facts m0 l0 s G) as (F1 & F2 & F3 & F4).
    split; [exact F1|]. split; [exact F2|]. split.
    + intros Hr. rewrite (after_snoc p m0 l0 ms) by exact E. auto.
    + intros c outcome now Hin.
      rewrite (after_snoc p m0 l0 ms) by exact E. apply F4, Hin.
  - assert (Hs : s = loop p) by (apply after_none; exact E).
    assert (Hi : running s = false /\ awaiting s = [])
      by (rewrite Hs; apply program_loop_idle).
    destruct Hi as [Hr Ha]. rewrite Ha, Hr. simpl.
    repeat split; try congruence; try lia; try contradiction.
Qed.

(** C3: per-cycle error isolation.  When the cycle under way fails with an
    error [e] (the capture is rejected with it, or [predict] throws it
    while decoding or running the model), the callback logs one line to
    standard error, made of the prefix and [e.message || e] (the message
    itself for an object whose message is a non-empty string), writes
    nothing to standard output, lets no rejection escape, and lowers the
    flag; the next tick then begins a fresh cycle.  The error is any value
    other than [null] and [undefined]. *)
Theorem C3_error_isolation (env : startup model) (m : model) (labels : value)
  (ms : Z) (evs : list (event buffer)) (c : nat) (outcome : capture buffer)
  (now : string) (e : value) :
  interval (program env) = Some (m, labels, ms) ->
  In c (awaiting (after be (program env) evs)) ->
  cycle_fails be m outcome e ->
  nullish e = false ->
  let p := program env in
  let s := after be p evs in
  let s' := after be p (evs ++ [Settled c outcome now]) in
  let s'' := after be p (evs ++ [Settled c outcome now; Tick]) in
  exists shown,
    shown_error e = Ok shown
    /\ (forall props msg,
          e = VObj props -> lookup "message" props = Some (VStr msg) ->
          msg <> ""%string -> shown = VStr msg)
    /\ stderr s' = stderr s ++ [[VStr "Capture/predict error:"; shown]]
    /\ stdout s' = stdout s
    /\ unhandled s' = unhandled s
    /\ running s' = false
    /\ awaiting s' = []
    /\ running s'' = true
    /\ awaiting s'' = [started s]
    /\ started s'' = S (started s).
Proof.
  intros E Hin Hfail Hn p s s'.
  pose proof (attempt_fails m labels outcome now e Hfail) as Ha.
  destruct (shown_error_defined e Hn) as (shown & Hs & Hmsg).
  exists shown. split; [exact Hs|]. split; [exact Hmsg|].
  pose proof (after_guard_inv env evs) as G. fold p s in G.
  assert (Hc : awaiting s = [c]).
  { fold p s in Hin.
    destruct G as [[_ G] | [_ [c' G]]]; rewrite G in Hin; [destruct Hin|].
    destruct Hin as [<-|[]]. exact G. }
  assert (Hs' : s' = set_running false
            (console_error [VStr "Capture/predict error:"; shown] (resume c s))).
  { unfold s'. rewrite (after_snoc p m labels ms) by exact E.
    fold s. unfold step. rewrite Hc. cbn [existsb]. rewrite Nat.eqb_refl.
    cbn [orb]. unfold finish. rewrite Ha, Hs. reflexivity. }
  assert (Hr : awaiting (resume c s) = []).
  { unfold resume. cbn [awaiting]. rewrite Hc. cbn [filter].
    rewrite Nat.eqb_refl. reflexivity. }
  change (evs ++ [Settled c outcome now; Tick])
    with (evs ++ [Settled c outcome now] ++ [Tick]).
  rewrite app_assoc.
  rewrite (after_snoc p m labels ms) by exact E. fold s'.
  rewrite Hs'.
  assert (Hf : stderr (resume c s) = stderr s /\ stdout (resume c s) = stdout s
               /\ unhandled (resume c s) = unhandled s
               /\ started (resume c s) = started s) by (repeat split).
  destruct Hf as (R1 & R2 & R3 & R4).
  set (r := resume c s) in *. clearbody r.
  cbn. rewrite Hr, R1, R2, R3, R4. repeat split.
Qed.

(** C4, as the program has it: when the model cannot be loaded, or the
    metadata file cannot be read or parsed, [main] rejects before it
    installs the interval, the handler of [main().catch] logs the failure
    to standard error, no cycle ever runs whatever happens later, and the
    process ends with status 0: the handler only logs, and nothing
    assigns an exit code. *)
Theorem C4_startup_failure (env : startup model) :
  is_throw (tf_loadLayersModel env)
  \/ is_throw (fs_readFile env)
  \/ (exists raw, fs_readFile env = Ok raw /\ is_throw (JSON_parse env raw)) ->
  exists err,
    loadModelAndLabels env = Throw err
    /\ let p := program env in
       interval p = None
       /\ stderr (loop p) = [[VStr "Failed to start:"; err]]
       /\ stdout (loop p) = []
       /\ (forall evs, after be p evs = loop p)
       /\ started (loop p) = 0%nat
       /\ exit_status p = Some 0.
Proof.
  intros H. destruct (loadModelAndLabels_fails env H) as [err E].
  exists err. split; [exact E|].
  unfold program, main. rewrite E. cbn. repeat split.
Qed.

(** C6: the inference pipeline.  When no call throws, [predict] makes
    exactly these calls, in this order, each on the result of the one
    before: decode the frame to 3 channels, resize bilinearly to 224 by
    224, divide by 255, add a batch dimension in front, run the model,
    read the output data; and it returns that data. *)
Theorem C6_predict_pipeline (m : model) (buf : buffer)
  (image resized normalized batched logits : tensor) (data : Float32Array) :
  Tf.tf_node_decodeImage be buf 3 = Ok image ->
  Tf.tf_image_resizeBilinear be image (224, 224) = Ok resized ->
  Tf.tensor_div be resized 255 = Ok normalized ->
  Tf.tensor_expandDims be normalized 0 = Ok batched ->
  Tf.model_predict be m batched = Ok logits ->
  Tf.tensor_dataSync be logits = Ok data ->
  Tf.predict be m buf []
  = ([Tf.DecodeImage buf 3;
      Tf.ResizeBilinear image (224, 224);
      Tf.Div resized 255;
      Tf.ExpandDims normalized 0;
      Tf.Predict m batched;
      Tf.DataSync logits],
     Ok data).
Proof.
  intros H1 H2 H3 H4 H5 H6.
  unfold Tf.predict, Tf.tidy, Tf.tf_bind, Tf.invoke, Tf.INPUT_SIZE.
  rewrite H1, H2, H3, H4, H5, H6. reflexivity.
Qed.

(** C9: the empty score vector.  [Math.max] of nothing is [-Infinity],
    which no index holds, so the top index is [-1]; the label of a label
    array at [-1] is [class_-1]; the confidence is [NaN]; and the cycle
    ends normally with one line on standard output. *)
Theorem C9_empty_score_vector (m : model) (entries : list value)
  (frame : buffer) (now : string) (s : state) :
  Tf.predict_result be m frame = Ok [] ->
  Math_max [] = neg_inf
  /\ topIdx_of [] = -1
  /\ label_of (VArr entries) (-1) = Ok (VStr "class_-1")
  /\ confidence_of [] (-1) = "NaN"%string
  /\ finish be m (VArr entries) (Ok frame) now s
     = set_running false
         (console_log ("[" ++ now ++ "] class_-1 (NaN%) | scores=") s).
Proof.
  intros H. repeat split.
  unfold finish, attempt. simpl. rewrite H. reflexivity.
Qed.

End Scheduler.

(** ** The claims about labels, scores and the log line *)

(** C5: the label of a top index.  For a label set of strings, an index
    with no entry (negative, or at or beyond the length, as whenever the
    score vector is longer than the label set) is reported as
    [class_<i>], and an index with an entry is reported as that entry. *)
Theorem C5_label_fallback (names : list string) :
  let labels := VArr (List.map VStr names) in
  (forall i : Z,
      i < 0 \/ Z.of_nat (List.length names) <= i ->
      label_of labels i = Ok (VStr ("class_" ++ Z_toString i)))
  /\ (forall (i : nat) (name : string),
      nth_error names i = Some name ->
      label_of labels (Z.of_nat i) = Ok (VStr name)
      /\ ToString (VStr name) = name).
Proof.
  intros labels. unfold labels, label_of, get_index. split.
  - intros i [Hi|Hi].
    + apply Z.ltb_lt in Hi. rewrite Hi. reflexivity.
    + destruct (Z.ltb_spec i 0); [reflexivity|].
      assert (E : nth_error (List.map VStr names) (Z.to_nat i) = None).
      { apply nth_error_None. rewrite length_map. lia. }
      rewrite E. reflexivity.
  - intros i name Hn.
    destruct (Z.ltb_spec (Z.of_nat i) 0); [lia|].
    rewrite Nat2Z.id, nth_error_map, Hn. split; reflexivity.
Qed.

(** C8: metadata without a [labels] field.  When the parsed metadata is
    an object with no [labels] property, [loadModelAndLabels] yields the
    empty label array, [main] installs the interval with it, and every
    top index is then reported as [class_<index>]. *)
Theorem C8_missing_labels_field {model : Type} (env : startup model)
  (m : model) (raw : string) (props : list (string * value)) :
  tf_loadLayersModel env = Ok m ->
  fs_readFile env = Ok raw ->
  JSON_parse env raw = Ok (VObj props) ->
  lookup "labels" props = None ->
  loadModelAndLabels env = Ok (m, VArr [])
  /\ (forall u, createWebcam env = Ok u ->
        interval (program env) = Some (m, VArr [], CAPTURE_MS))
  /\ (forall topIdx : Z,
        label_of (VArr []) topIdx = Ok (VStr ("class_" ++ Z_toString topIdx))).
Proof.
  intros H1 H2 H3 H4.
  assert (E : loadModelAndLabels env = Ok (m, VArr [])).
  { unfold loadModelAndLabels. rewrite H1, H2. simpl. rewrite H3. simpl.
    rewrite H4. reflexivity. }
  split; [exact E|]. split.
  - intros u Hu. unfold program, main. rewrite E. simpl. rewrite Hu.
    reflexivity.
  - intros topIdx. unfold label_of, get_index. simpl.
    destruct (topIdx <? 0); [reflexivity|].
    destruct (Z.to_nat topIdx); reflexivity.
Qed.

(** C10: a nullish entry.  When the entry of the label array at the top
    index is [null] or [undefined], the label is [class_<index>]. *)
Theorem C10_nullish_entry (entries : list value) (i : nat) (entry : value) :
  nth_error entries i = Some entry ->
  nullish entry = true ->
  label_of (VArr entries) (Z.of_nat i)
  = Ok (VStr ("class_" ++ Z_toString (Z.of_nat i))).
Proof.
  intros H Hn. unfold label_of, get_index.
  destruct (Z.ltb_spec (Z.of_nat i) 0); [lia|].
  rewrite Nat2Z.id, H. simpl. unfold coalesce. rewrite Hn. reflexivity.
Qed.

(** C2, as the program has it: for every score vector of length at least
    1 that holds no [NaN], the top index is the first index whose score no
    score exceeds (every earlier score is strictly smaller), and the
    confidence is [toFixed(1)] of that score times 100, which is in fixed
    notation with one fraction digit whenever the product is finite and
    below 10^21 in magnitude.  For the labels rock, paper, scissors and
    the scores 0.1, 0.7, 0.2 the label is [paper] and the confidence
    [70.0]; for no labels and the scores 0.3, 0.3 they are [class_0] and
    [30.0]. *)
Theorem C2_top_label_and_confidence :
  (forall scores : Float32Array,
      scores <> [] -> no_nan scores ->
      exists (i : nat) (top : number),
        topIdx_of scores = Z.of_nat i
        /\ nth_error scores i = Some top
        /\ (forall j y, nth_error scores j = Some y -> less_than top y = false)
        /\ (forall j y, (j < i)%nat -> nth_error scores j = Some y ->
                        less_than y top = true)
        /\ confidence_of scores (topIdx_of scores)
           = toFixed (multiply top (of_Z 100)) 1
        /\ (below_1e21 (multiply top (of_Z 100)) = true ->
            fixed_notation 1 (confidence_of scores (topIdx_of scores))))
  /\ (label_of rps_labels (topIdx_of rps_scores) = Ok (VStr "paper")
      /\ confidence_of rps_scores (topIdx_of rps_scores) = "70.0"%string)
  /\ (label_of (VArr []) (topIdx_of tie_scores) = Ok (VStr "class_0")
      /\ confidence_of tie_scores (topIdx_of tie_scores) = "30.0"%string).
Proof.
  split; [|split; split; vm_compute; reflexivity].
  intros scores Hne Hn.
  destruct (topIdx_first_max scores Hne Hn) as (i & top & H1 & H2 & H3 & H4).
  exists i, top.
  assert (Hc : confidence_of scores (topIdx_of scores)
               = toFixed (multiply top (of_Z 100)) 1).
  { unfold confidence_of, get. rewrite H1.
    destruct (Z.ltb_spec (Z.of_nat i) 0); [lia|].
    rewrite Nat2Z.id, H2. reflexivity. }
  repeat split; auto.
  intros Hb. rewrite Hc. apply toFixed_notation; [lia | exact Hb].
Qed.

(** C7 at a failing input: with the scores 0.1, 0.7, 0.2 the callback of
    [map] yields the texts 0.10, 0.70, 0.20, but [map] on a
    [Float32Array] stores them back as binary32 Numbers, so the line
    that is logged lists the scores in full precision. *)
Theorem C7_scores_not_two_decimals :
  let evs :=
    [Tick; Settled 0 (Called VNull tt) "2024-01-01T00:00:05.000Z"] in
  stdout (after (staged_backend rps_scores) (program rps_startup) evs)
  = ["Model loaded. Capturing from webcam every 5 seconds...";
     "[2024-01-01T00:00:05.000Z] paper (70.0%) | scores=0.10000000149011612, 0.699999988079071, 0.20000000298023224"]%string
  /\ List.map (fun v => toFixed v 2) rps_scores
     = ["0.10"; "0.70"; "0.20"]%string
  /\ scores_text rps_scores
     = "0.10000000149011612, 0.699999988079071, 0.20000000298023224"%string.
Proof. repeat split; vm_compute; reflexivity. Qed.

(** ** The claims at concrete inputs *)

(** A run of the guard: two ticks begin one cycle, its end lowers the
    flag, and the next tick begins the second. *)
Example guard_trace :
  let be := staged_backend rps_scores in
  let p := program rps_startup in
  let done := Settled 0 (Called VNull tt) "2024-01-01T00:00:05.000Z" in
  (running (after be p [Tick; Tick]) = true
   /\ awaiting (after be p [Tick; Tick]) = [0%nat]
   /\ started (after be p [Tick; Tick]) = 1%nat)
  /\ (running (after be p [Tick; Tick; done]) = false
      /\ awaiting (after be p [Tick; Tick; done]) = [])
  /\ (awaiting (after be p [Tick; Tick; done; done; Tick]) = [1%nat]
      /\ List.length (stdout (after be p [Tick; Tick; done; done; Tick]))
         = 2%nat).
Proof. repeat split; vm_compute; reflexivity. Qed.

(** C1 after one tick: a second tick is dropped, and the end of the cycle
    lowers the flag. *)
Lemma C1_witness :
  let be := staged_backend rps_scores in
  let p := program rps_startup in
  let s := after be p [Tick] in
  let s' :=
    after be p ([Tick] ++ [Settled 0 (Called VNull tt)
                             "2024-01-01T00:00:05.000Z"]) in
  after be p ([Tick] ++ [Tick]) = s
  /\ (running s' = false /\ awaiting s' = [] /\ started s' = started s).
Proof.
  pose proof (C1_guard_invariant (staged_backend rps_scores) rps_startup
                [Tick]) as (_ & _ & Hdrop & Hend).
  split.
  - apply Hdrop. reflexivity.
  - apply Hend. simpl. left. reflexivity.
Defined.

(** C5 at the labels rock, paper, scissors: index 5 has no entry, index 1
    has the entry [paper]. *)
Lemma C5_witness :
  label_of rps_labels 5 = Ok (VStr "class_5")
  /\ label_of rps_labels (Z.of_nat 1) = Ok (VStr "paper")
  /\ ToString (VStr "paper") = "paper"%string.
Proof.
  pose proof (C5_label_fallback ["rock"; "paper"; "scissors"]%string)
    as (Hout & Hin).
  split.
  - apply (Hout 5). right. simpl. lia.
  - apply (Hin 1%nat "paper"%string). reflexivity.
Defined.

(** C2 at the scores 0.3, 0.3. *)
Lemma C2_witness :
  exists (i : nat) (top : number),
    topIdx_of tie_scores = Z.of_nat i
    /\ nth_error tie_scores i = Some top
    /\ (forall j y, nth_error tie_scores j = Some y -> less_than top y = false)
    /\ (forall j y, (j < i)%nat -> nth_error tie_scores j = Some y ->
                    less_than y top = true)
    /\ confidence_of tie_scores (topIdx_of tie_scores)
       = toFixed (multiply top (of_Z 100)) 1
    /\ (below_1e21 (multiply top (of_Z 100)) = true ->
        fixed_notation 1 (confidence_of tie_scores (topIdx_of tie_scores))).
Proof.
  apply (proj1 C2_top_label_and_confidence tie_scores).
  - discriminate.
  - intros x Hx. vm_compute in Hx.
    destruct Hx as [<-|[<-|[]]]; reflexivity.
Defined.

(** C2 as stated fails: with a [NaN] among two scores the top index is
    [-1], no index of the vector, and the confidence is the text [NaN];
    with the single score 1e20 the confidence is in exponent notation. *)
Lemma C2_counterexample :
  List.length nan_scores = 2%nat
  /\ topIdx_of nan_scores = -1
  /\ confidence_of nan_scores (topIdx_of nan_scores) = "NaN"%string
  /\ List.length huge_scores = 1%nat
  /\ confidence_of huge_scores (topIdx_of huge_scores)
     = "1.0000000200408773e+22"%string.
Proof. repeat split; vm_compute; reflexivity. Qed.

(** C3 at a frame that cannot be decoded. *)
Lemma C3_witness :
  let be := undecodable_backend in
  let p := program rps_startup in
  let cb := Settled 0 (Called VNull tt) "2024-01-01T00:00:05.000Z" in
  let e := Error "Expected image (BMP, JPEG, PNG, or GIF)" in
  let s := after be p [Tick] in
  let s' := after be p ([Tick] ++ [cb]) in
  let s'' := after be p ([Tick] ++ [cb; Tick]) in
  exists shown,
    shown_error e = Ok shown
    /\ (forall props msg,
          e = VObj props -> lookup "message" props = Some (VStr msg) ->
          msg <> ""%string -> shown = VStr msg)
    /\ stderr s' = stderr s ++ [[VStr "Capture/predict error:"; shown]]
    /\ stdout s' = stdout s
    /\ unhandled s' = unhandled s
    /\ running s' = false
    /\ awaiting s' = []
    /\ running s'' = true
    /\ awaiting s'' = [started s]
    /\ started s'' = S (started s).
Proof.
  apply (C3_error_isolation undecodable_backend rps_startup tt rps_labels
           CAPTURE_MS [Tick] 0%nat (Called VNull tt)
           "2024-01-01T00:00:05.000Z"
           (Error "Expected image (BMP, JPEG, PNG, or GIF)")).
  - reflexivity.
  - simpl. left. reflexivity.
  - right. exists tt. split; reflexivity.
  - reflexivity.
Defined.

(** C4 as stated fails: with metadata that does not parse, the failure is
    logged and the process ends with status 0. *)
Lemma C4_counterexample :
  loadModelAndLabels invalid_json_startup
  = Throw (Error "Unexpected end of JSON input")
  /\ stderr (loop (program invalid_json_startup))
     = [[VStr "Failed to start:"; Error "Unexpected end of JSON input"]]
  /\ exit_status (program invalid_json_startup) = Some 0.
Proof. repeat split. Qed.

(** C4 at metadata that does not parse. *)
Lemma C4_witness :
  exists err,
    loadModelAndLabels invalid_json_startup = Throw err
    /\ let p := program invalid_json_startup in
       interval p = None
       /\ stderr (loop p) = [[VStr "Failed to start:"; err]]
       /\ stdout (loop p) = []
       /\ (forall evs, after (staged_backend rps_scores) p evs = loop p)
       /\ started (loop p) = 0%nat
       /\ exit_status p = Some 0.
Proof.
  apply (C4_startup_failure (staged_backend rps_scores) invalid_json_startup).
  right. right. exists truncated_metadata. split; [reflexivity|].
  exists (Error "Unexpected end of JSON input"). reflexivity.
Defined.

(** C6 at a backend that numbers its tensors by stage. *)
Lemma C6_witness :
  Tf.predict (staged_backend rps_scores) tt tt []
  = ([Tf.DecodeImage tt 3;
      Tf.ResizeBilinear 1%nat (224, 224);
      Tf.Div 2%nat 255;
      Tf.ExpandDims 3%nat 0;
      Tf.Predict tt 4%nat;
      Tf.DataSync 5%nat],
     Ok rps_scores).
Proof.
  apply (C6_predict_pipeline (staged_backend rps_scores) tt tt
           1%nat 2%nat 3%nat 4%nat 5%nat rps_scores); reflexivity.
Defined.

(** C8 at metadata that holds a model name only. *)
Lemma C8_witness :
  loadModelAndLabels unlabelled_startup = Ok (tt, VArr [])
  /\ (forall u, createWebcam unlabelled_startup = Ok u ->
        interval (program unlabelled_startup) = Some (tt, VArr [], CAPTURE_MS))
  /\ (forall topIdx : Z,
        label_of (VArr []) topIdx = Ok (VStr ("class_" ++ Z_toString topIdx))).
Proof.
  apply (C8_missing_labels_field unlabelled_startup tt unlabelled_metadata
           [("modelName"%string, VStr "gestures")]); reflexivity.
Defined.

(** C9 at a model with no outputs. *)
Lemma C9_witness :
  Math_max [] = neg_inf
  /\ topIdx_of [] = -1
  /\ label_of rps_labels (-1) = Ok (VStr "class_-1")
  /\ confidence_of [] (-1) = "NaN"%string
  /\ finish (staged_backend []) tt rps_labels (Ok tt)
       "2024-01-01T00:00:05.000Z" initial
     = set_running false
         (console_log "[2024-01-01T00:00:05.000Z] class_-1 (NaN%) | scores="
            initial).
Proof.
  apply (C9_empty_score_vector (staged_backend []) tt
           [VStr "rock"; VStr "paper"; VStr "scissors"] tt
           "2024-01-01T00:00:05.000Z" initial).
  reflexivity.
Defined.

(** C10 at a label array whose second entry is [null]. *)
Lemma C10_witness :
  label_of (VArr [VStr "rock"; VNull; VStr "scissors"]) (Z.of_nat 1)
  = Ok (VStr ("class_" ++ Z_toString (Z.of_nat 1))).
Proof.
  apply (C10_nullish_entry [VStr "rock"; VNull; VStr "scissors"] 1 VNull);
    reflexivity.
Defined.

(** * Further properties of the code *)

(** ** Lines 70-73: the top index, the label and the log line *)

Section TopIndexEdges.

Lemma no_nan_or_has_nan (scores : Float32Array) :
  no_nan scores \/ has_nan scores.
Proof.
  induction scores as [|x rest [IH|(y & Hy & Hn)]].
  - left. intros x [].
  - destruct (is_nan x) eqn:E.
    + right. exists x. split; [left; reflexivity | exact E].
    + left. intros y [<-|Hy]; auto.
  - right. exists y. split; [right; exact Hy | exact Hn].
Qed.

Lemma max_from_nan (args : list number) : forall highest,
  has_nan args -> max_from highest args = NaN.
Proof.
  induction args as [|x rest IH]; intros highest (y & Hy & Hn).
  - destruct Hy.
  - simpl. destruct (is_nan x) eqn:E; [reflexivity|].
    destruct Hy as [<-|Hy]; [congruence|].
    apply IH. exists y. auto.
Qed.

Lemma indexOf_from_nan (a : Float32Array) : forall k,
  indexOf_from a NaN k = -1.
Proof. induction a as [|x rest IH]; intros k; simpl; auto. Qed.

Lemma topIdx_has_nan (scores : Float32Array) :
  has_nan scores -> topIdx_of scores = -1.
Proof.
  intros H. unfold topIdx_of, Math_max, indexOf.
  rewrite (max_from_nan scores neg_inf H). apply indexOf_from_nan.
Qed.

(** X1: the top index is always between -1 and the last index of the
    score vector, and it is -1 exactly when the vector is empty or holds a
    [NaN]. *)
Theorem X1_topIdx_range_and_missing (scores : Float32Array) :
  -1 <= topIdx_of scores < Z.of_nat (List.length scores)
  /\ (topIdx_of scores = -1 <-> scores = [] \/ has_nan scores).
Proof.
  destruct scores as [|x rest].
  - split; [vm_compute; split; congruence | split; auto].
  - set (scores := x :: rest).
    assert (Hlen : 0 < Z.of_nat (List.length scores)) by (simpl; lia).
    destruct (no_nan_or_has_nan scores) as [Hn|Hn].
    + destruct (topIdx_first_max scores ltac:(discriminate) Hn)
        as (i & top & H1 & H2 & _).
      assert (i < List.length scores)%nat
        by (apply nth_error_Some; congruence).
      rewrite H1. split; [lia|]. split; [lia|].
      intros [E|(y & Hy & Hy')]; [discriminate|].
      rewrite (Hn y Hy) in Hy'. discriminate.
    + rewrite (topIdx_has_nan scores Hn). split; [lia|]. split; auto.
Qed.

(** X2: one [NaN] among the scores, wherever it stands, makes the line
    report [class_-1 (NaN%)] for any label array. *)
Theorem X2_nan_score_report (entries : list value) (scores : Float32Array)
  (now : string) :
  has_nan scores ->
  report (VArr entries) scores now
  = Ok ("[" ++ now ++ "] class_-1 (NaN%) | scores=" ++ scores_text scores)%string.
Proof.
  intros H. unfold report. rewrite (topIdx_has_nan scores H). reflexivity.
Qed.

(** X3: whenever the label lookup does not throw, the label is neither
    [null] nor [undefined]. *)
Theorem X3_label_never_nullish (labels : value) (topIdx : Z) (label : value) :
  label_of labels topIdx = Ok label -> nullish label = false.
Proof.
  unfold label_of. destruct (get_index labels topIdx) as [entry|e]; simpl;
    [|discriminate].
  intros H. injection H as <-. unfold coalesce.
  destruct (nullish entry) eqn:E; [reflexivity | exact E].
Qed.

End TopIndexEdges.

Section Loader.
Context {model : Type}.

(** X4: the labels that [loadModelAndLabels] returns are never
    [undefined], and looking a label up in them throws exactly when they
    are [null] (the default [[]] replaces a missing [labels], not a
    [null] one). *)
Theorem X4_loaded_labels_throw_iff_null (env : startup model) (m : model)
  (labels : value) :
  loadModelAndLabels env = Ok (m, labels) ->
  labels <> VUndefined
  /\ (forall topIdx : Z, is_throw (label_of labels topIdx) <-> labels = VNull).
Proof.
  unfold loadModelAndLabels. intros H.
  destruct (Promise_all _ _ _) as [[m0 raw]|e]; simpl in H; [|discriminate].
  destruct (JSON_parse env raw) as [parsed|e]; simpl in H; [|discriminate].
  assert (Hl : labels <> VUndefined).
  { unfold destructure_labels in H.
    destruct parsed; simpl in H; try discriminate;
      try (injection H as _ <-; discriminate).
    destruct (lookup "labels" props) as [[]|]; simpl in H;
      injection H as _ <-; discriminate. }
  split; [exact Hl|].
  intros topIdx. unfold label_of, is_throw.
  destruct labels; simpl; split;
    try congruence; try (intros [e' E]; discriminate); eauto.
Qed.

(** X5: [loadModelAndLabels] fails exactly when the model does not load,
    the metadata file cannot be read, its text does not parse, or it
    parses to [null]. *)
Theorem X5_loadModelAndLabels_failure_causes (env : startup model) :
  is_throw (loadModelAndLabels env)
  <-> (is_throw (tf_loadLayersModel env)
       \/ is_throw (fs_readFile env)
       \/ exists raw,
            fs_readFile env = Ok raw
            /\ (is_throw (JSON_parse env raw)
                \/ exists parsed,
                     JSON_parse env raw = Ok parsed /\ nullish parsed = true)).
Proof.
  unfold loadModelAndLabels, Promise_all, is_throw. split.
  - intros [e H].
    destruct (tf_loadLayersModel env) as [m|e1]; [|left; eauto].
    destruct (fs_readFile env) as [raw|e2]; [|right; left; eauto].
    right. right. exists raw. split; [reflexivity|]. simpl in H.
    destruct (JSON_parse env raw) as [parsed|e3]; [|left; eauto].
    right. exists parsed. split; [reflexivity|]. simpl in H.
    destruct parsed; simpl in H; try reflexivity; discriminate.
  - intros [[e H] | [[e H] | (raw & Hr & [[e H] | (parsed & Hp & Hn)])]].
    + rewrite H. destruct (fs_readFile env); simpl; eauto.
    + rewrite H. destruct (tf_loadLayersModel env); simpl; eauto.
    + rewrite Hr. destruct (tf_loadLayersModel env); simpl; eauto.
      rewrite H. simpl. eauto.
    + rewrite Hr. destruct (tf_loadLayersModel env); simpl; eauto.
      rewrite Hp. simpl. destruct parsed; try discriminate; simpl; eauto.
Qed.

(** X6: metadata that parses to something other than an object (a bare
    array of names, a string, a number, a boolean) is accepted and gives
    the empty label array. *)
Theorem X6_non_object_metadata_gives_no_labels (env : startup model) (m : model)
  (raw : string) (parsed : value) :
  tf_loadLayersModel env = Ok m ->
  fs_readFile env = Ok raw ->
  JSON_parse env raw = Ok parsed ->
  nullish parsed = false ->
  (forall props, parsed <> VObj props) ->
  loadModelAndLabels env = Ok (m, VArr []).
Proof.
  intros H1 H2 H3 Hn Ho. unfold loadModelAndLabels.
  rewrite H1, H2. simpl. rewrite H3. simpl.
  destruct parsed; try discriminate; try reflexivity.
  exfalso. apply (Ho props). reflexivity.
Qed.

End Loader.

(** ** [predict]: success and failure *)

Section PredictStages.
Context {buffer tensor model : Type}.
Variable be : Tf.backend buffer tensor model.

(** X7: when [predict] returns data, every stage succeeded on the result
    of the one before, the data is what [dataSync] gave for the output of
    the model, and six calls were made. *)
Theorem X7_predict_success_stages (m : model) (buf : buffer)
  (calls : list (Tf.call buffer tensor model)) (data : Float32Array) :
  Tf.predict be m buf [] = (calls, Ok data) ->
  exists image resized normalized batched logits,
    Tf.tf_node_decodeImage be buf 3 = Ok image
    /\ Tf.tf_image_resizeBilinear be image (224, 224) = Ok resized
    /\ Tf.tensor_div be resized 255 = Ok normalized
    /\ Tf.tensor_expandDims be normalized 0 = Ok batched
    /\ Tf.model_predict be m batched = Ok logits
    /\ Tf.tensor_dataSync be logits = Ok data
    /\ List.length calls = 6%nat.
Proof.
  unfold Tf.predict, Tf.tidy, Tf.tf_bind, Tf.invoke, Tf.INPUT_SIZE.
  destruct (Tf.tf_node_decodeImage be buf 3) as [image|e] eqn:E1;
    [|discriminate].
  destruct (Tf.tf_image_resizeBilinear be image (224, 224))
    as [resized|e] eqn:E2; [|discriminate].
  destruct (Tf.tensor_div be resized 255) as [normalized|e] eqn:E3;
    [|discriminate].
  destruct (Tf.tensor_expandDims be normalized 0) as [batched|e] eqn:E4;
    [|discriminate].
  destruct (Tf.model_predict be m batched) as [logits|e] eqn:E5;
    [|discriminate].
  intros H. injection H as <- H6.
  exists image, resized, normalized, batched, logits. repeat split; auto.
Qed.

(** X8: the model is run only by [predict]'s own model, and only on a
    tensor that came out of decoding, resizing, dividing by 255 and
    adding the batch dimension: a stage that throws keeps the model from
    running. *)
Theorem X8_model_runs_only_on_prepared_frame (m m' : model) (buf : buffer)
  (x : tensor) :
  In (Tf.Predict m' x) (fst (Tf.predict be m buf [])) ->
  m' = m
  /\ exists image resized normalized,
       Tf.tf_node_decodeImage be buf 3 = Ok image
       /\ Tf.tf_image_resizeBilinear be image (224, 224) = Ok resized
       /\ Tf.tensor_div be resized 255 = Ok normalized
       /\ Tf.tensor_expandDims be normalized 0 = Ok x.
Proof.
  unfold Tf.predict, Tf.tidy, Tf.tf_bind, Tf.invoke, Tf.INPUT_SIZE.
  destruct (Tf.tf_node_decodeImage be buf 3) as [image|e] eqn:E1;
    [|simpl; intros [H|[]]; discriminate].
  destruct (Tf.tf_image_resizeBilinear be image (224, 224))
    as [resized|e] eqn:E2; [|simpl; intros [H|[H|[]]]; discriminate].
  destruct (Tf.tensor_div be resized 255) as [normalized|e] eqn:E3;
    [|simpl; intros [H|[H|[H|[]]]]; discriminate].
  destruct (Tf.tensor_expandDims be normalized 0) as [batched|e] eqn:E4;
    [|simpl; intros [H|[H|[H|[H|[]]]]]; discriminate].
  assert (Hin : forall l : list (Tf.call buffer tensor model),
            In (Tf.Predict m' x)
               ([Tf.DecodeImage buf 3; Tf.ResizeBilinear image (224, 224);
                 Tf.Div resized 255; Tf.ExpandDims normalized 0;
                 Tf.Predict m batched] ++ l) ->
            (forall c, In c l -> c <> Tf.Predict m' x) ->
            m' = m /\ x = batched).
  { intros l H Hl. simpl in H.
    destruct H as [H|[H|[H|[H|[H|H]]]]]; try discriminate.
    - injection H as -> ->. auto.
    - exfalso. apply (Hl _ H). reflexivity. }
  intros H.
  assert (Hm : m' = m /\ x = batched).
  { destruct (Tf.model_predict be m batched) as [logits|e] eqn:E5.
    - apply (Hin [Tf.DataSync logits]); [exact H|].
      intros c [<-|[]]. discriminate.
    - apply (Hin []); [exact H | intros c []]. }
  destruct Hm as [-> ->]. split; [reflexivity|].
  exists image, resized, normalized. auto.
Qed.

End PredictStages.

(** ** Startup *)

Section Startup.
Context {model : Type}.

(** X9: when the model and labels load and the webcam is set up, the
    program prints the one line [Model loaded...], writes nothing to
    standard error, installs the interval of 5000 ms with that model and
    those labels, starts with the flag down, and does not end. *)
Theorem X9_startup_success (env : startup model) (m : model) (labels : value) :
  loadModelAndLabels env = Ok (m, labels) ->
  createWebcam env = Ok tt ->
  let p := program env in
  interval p = Some (m, labels, 5000)
  /\ stdout (loop p)
     = ["Model loaded. Capturing from webcam every 5 seconds..."%string]
  /\ stderr (loop p) = []
  /\ running (loop p) = false
  /\ exit_status p = None.
Proof.
  intros H1 H2. unfold program, main. rewrite H1. simpl. rewrite H2.
  repeat split.
Qed.

(** X10: when the webcam cannot be set up, although the model and labels
    loaded, the program logs [Failed to start:] with the webcam's error,
    never prints [Model loaded...], installs no interval, and ends with
    status 0. *)
Theorem X10_webcam_failure_is_startup_failure (env : startup model) (m : model)
  (labels : value) (e : value) :
  loadModelAndLabels env = Ok (m, labels) ->
  createWebcam env = Throw e ->
  let p := program env in
  interval p = None
  /\ stderr (loop p) = [[VStr "Failed to start:"; e]]
  /\ stdout (loop p) = []
  /\ exit_status p = Some 0.
Proof.
  intros H1 H2. unfold program, main. rewrite H1. simpl. rewrite H2.
  repeat split.
Qed.

End Startup.

(** ** The end of a cycle *)

Section CycleEnd.
Context {buffer tensor model : Type}.
Variable be : Tf.backend buffer tensor model.

(** The state in which the awaited cycle resumes keeps every record. *)
Lemma after_settle_awaited (env : startup model) (m : model) (labels : value)
  (ms : Z) evs c outcome now :
  interval (program env) = Some (m, labels, ms) ->
  In c (awaiting (after be (program env) evs)) ->
  exists r,
    after be (program env) (evs ++ [Settled c outcome now])
    = finish be m labels (captureFrame outcome) now r
    /\ awaiting r = []
    /\ stdout r = stdout (after be (program env) evs)
    /\ stderr r = stderr (after be (program env) evs)
    /\ unhandled r = unhandled (after be (program env) evs)
    /\ started r = started (after be (program env) evs).
Proof.
  intros E Hin. set (s := after be (program env) evs) in *.
  pose proof (after_guard_inv be env evs) as G. fold s in G.
  assert (Hc : awaiting s = [c]).
  { destruct G as [[_ G] | [_ [c' G]]]; rewrite G in Hin; [destruct Hin|].
    destruct Hin as [<-|[]]. exact G. }
  exists (resume c s).
  rewrite (after_snoc be (program env) m labels ms) by exact E. fold s.
  unfold step. rewrite Hc. cbn [existsb]. rewrite Nat.eqb_refl. cbn [orb].
  repeat split.
  unfold resume. cbn [awaiting]. rewrite Hc. cbn [filter].
  rewrite Nat.eqb_refl. reflexivity.
Qed.


(** X12: a truthy [err] passed to the capture callback is always logged
    as one entry on standard error, with no line on standard output and
    no unhandled rejection, whatever [data] holds and whatever the
    backend would do. *)
Theorem X12_callback_error_always_logged (env : startup model) (m : model)
  (labels : value) (ms : Z) (evs : list (event buffer)) (c : nat)
  (err : value) (data : buffer) (now : string) :
  interval (program env) = Some (m, labels, ms) ->
  In c (awaiting (after be (program env) evs)) ->
  ToBoolean err = true ->
  let s := after be (program env) evs in
  let s' := after be (program env) (evs ++ [Settled c (Called err data) now]) in
  exists shown,
    shown_error err = Ok shown
    /\ stderr s' = stderr s ++ [[VStr "Capture/predict error:"; shown]]
    /\ stdout s' = stdout s
    /\ unhandled s' = unhandled s
    /\ running s' = false.
Proof.
  intros E Hin Herr s s'.
  destruct (shown_error_defined err (truthy_not_nullish err Herr))
    as (shown & Hs & _).
  destruct (after_settle_awaited env m labels ms evs c (Called err data) now
              E Hin) as (r & Hs' & R0 & R1 & R2 & R3 & R4).
  exists shown. split; [exact Hs|].
  unfold s'. rewrite Hs'. unfold finish, attempt, captureFrame.
  rewrite Herr. simpl. rewrite Hs.
  cbn. rewrite R1, R2, R3. repeat split.
Qed.

(** X13: when a cycle fails with [null] or [undefined], the [catch]
    block itself throws on [err.message]: nothing is logged, the
    callback's promise is rejected with nothing to handle it, and the
    [finally] block still lowers the flag. *)
Theorem X13_nullish_throw_escapes_catch (env : startup model) (m : model)
  (labels : value) (ms : Z) (evs : list (event buffer)) (c : nat)
  (outcome : capture buffer) (now : string) (e : value) :
  interval (program env) = Some (m, labels, ms) ->
  In c (awaiting (after be (program env) evs)) ->
  cycle_fails be m outcome e ->
  nullish e = true ->
  let s := after be (program env) evs in
  let s' := after be (program env) (evs ++ [Settled c outcome now]) in
  stderr s' = stderr s
  /\ stdout s' = stdout s
  /\ (exists reason, unhandled s' = unhandled s ++ [reason])
  /\ running s' = false
  /\ awaiting s' = [].
Proof.
  intros E Hin Hfail Hn s s'.
  destruct (after_settle_awaited env m labels ms evs c outcome now E Hin)
    as (r & Hs' & R0 & R1 & R2 & R3 & R4).
  unfold s'. rewrite Hs'. unfold finish.
  rewrite (attempt_fails be m labels outcome now e Hfail).
  destruct e; try discriminate; cbn; rewrite R0, R1, R2, R3;
    repeat split; eauto.
Qed.

(** X14: with labels [null], a cycle whose capture and prediction
    succeed still logs an error entry with a message, and no prediction
    line. *)
Theorem X14_null_labels_fail_every_cycle (env : startup model) (m : model)
  (ms : Z) (evs : list (event buffer)) (c : nat) (err : value)
  (data : buffer) (now : string) (scores : Float32Array) :
  interval (program env) = Some (m, VNull, ms) ->
  In c (awaiting (after be (program env) evs)) ->
  ToBoolean err = false ->
  Tf.predict_result be m data = Ok scores ->
  let s := after be (program env) evs in
  let s' := after be (program env) (evs ++ [Settled c (Called err data) now]) in
  (exists msg, stderr s' = stderr s ++ [[VStr "Capture/predict error:"; VStr msg]])
  /\ stdout s' = stdout s
  /\ unhandled s' = unhandled s
  /\ running s' = false.
Proof.
  intros E Hin Herr Hp s s'.
  destruct (after_settle_awaited env m VNull ms evs c (Called err data) now
              E Hin) as (r & Hs' & R0 & R1 & R2 & R3 & R4).
  unfold s'. rewrite Hs'. unfold finish, attempt, captureFrame.
  rewrite Herr. simpl. rewrite Hp. simpl.
  rewrite R1, R2, R3. repeat split. eexists. reflexivity.
Qed.

End CycleEnd.

(** ** Counting cycles and records *)

Section Accounting.
Context {buffer tensor model : Type}.
Variable be : Tf.backend buffer tensor model.

Lemma finish_one_record (m : model) labels settled now s :
  records (finish be m labels settled now s) = S (records s).
Proof.
  unfold finish, records.
  destruct (attempt be m labels settled now) as [line|err];
    [|destruct (shown_error err)]; simpl; rewrite length_app; simpl; lia.
Qed.

Lemma step_accounting (m : model) labels s ev :
  guard_inv s ->
  let s' := step be m labels s ev in
  (records s' + List.length (awaiting s') + started s
   = records s + List.length (awaiting s) + started s')%nat
  /\ (started s' <= started s + (if is_tick ev then 1 else 0))%nat
  /\ (started s' + List.length (awaiting s)
      <= started s + List.length (awaiting s')
         + (if is_tick ev then 0 else 1))%nat.
Proof.
  intros G. destruct ev as [|c outcome now]; simpl.
  - destruct G as [[Hr Ha] | [Hr [c Ha]]]; rewrite Hr; simpl.
    + rewrite Ha. unfold records. simpl. lia.
    + lia.
  - destruct (existsb (Nat.eqb c) (awaiting s)) eqn:E; [|lia].
    destruct G as [[Hr Ha] | [Hr [c' Ha]]]; [rewrite Ha in E; discriminate|].
    destruct (awaiting_one_resume c c' s Ha E) as [-> Hres].
    destruct (finish_fields be m labels (captureFrame outcome) now (resume c' s))
      as (_ & F2 & F3).
    cbv zeta in F2, F3. rewrite F2, F3, Hres, Ha.
    rewrite finish_one_record. unfold records. simpl. lia.
Qed.

Lemma run_accounting (m : model) labels evs : forall s,
  guard_inv s ->
  let s' := run be m labels s evs in
  (records s' + List.length (awaiting s') + started s
   = records s + List.length (awaiting s) + started s')%nat
  /\ (started s' <= started s + count_ticks evs)%nat
  /\ (started s' + List.length (awaiting s)
      <= started s + List.length (awaiting s') + count_settled evs)%nat.
Proof.
  induction evs as [|ev evs IH]; intros s G.
  - simpl. unfold count_ticks, count_settled. simpl. lia.
  - pose proof (step_accounting m labels s ev G) as (A1 & A2 & A3).
    pose proof (step_guard_inv be m labels s ev G) as G'.
    destruct (IH _ G') as (B1 & B2 & B3).
    cbv zeta in *. simpl run.
    unfold count_ticks, count_settled in *. simpl filter.
    destruct (is_tick ev); simpl negb; cbn [List.length] in *; lia.
Qed.

(** X15: at every moment, the records written (lines on standard
    output, entries on standard error, unhandled rejections) and the
    cycle under way add up to one more than the cycles begun: startup
    writes one record, and each cycle that ended wrote exactly one. *)
Theorem X15_one_record_per_ended_cycle (env : startup model)
  (evs : list (event buffer)) :
  let s := after be (program env) evs in
  (records s + List.length (awaiting s) = S (started s))%nat.
Proof.
  intros s. unfold s, after.
  assert (H0 : records (loop (program env)) = 1%nat
               /\ started (loop (program env)) = 0%nat
               /\ awaiting (loop (program env)) = []).
  { unfold program, main.
    destruct (loadModelAndLabels env) as [[m0 l0]|e]; simpl; auto.
    destruct (createWebcam env); simpl; auto. }
  destruct H0 as (R & S0 & A0).
  destruct (interval (program env)) as [[[m0 l0] ms]|].
  - destruct (run_accounting m0 l0 evs _ (program_guard_inv env))
      as (B1 & _). cbv zeta in B1. rewrite R, S0, A0 in B1.
    simpl in B1. lia.
  - rewrite A0, S0, R. reflexivity.
Qed.

(** X16: the cycles begun never exceed the ticks that fired, nor the
    settlements seen by more than one: cycles do not pile up. *)
Theorem X16_cycles_bounded_by_ticks_and_settlements (env : startup model)
  (evs : list (event buffer)) :
  let s := after be (program env) evs in
  (started s <= count_ticks evs)%nat
  /\ (started s <= S (count_settled evs))%nat.
Proof.
  intros s. unfold s, after.
  pose proof (program_loop_idle env) as [_ A0].
  assert (S0 : started (loop (program env)) = 0%nat).
  { unfold program, main.
    destruct (loadModelAndLabels env) as [[m0 l0]|e]; simpl; auto.
    destruct (createWebcam env); simpl; auto. }
  destruct (interval (program env)) as [[[m0 l0] ms]|] eqn:E.
  - destruct (run_accounting m0 l0 evs _ (program_guard_inv env))
      as (_ & B2 & B3). cbv zeta in B2, B3. rewrite S0 in *. rewrite A0 in B3.
    split; [lia|].
    pose proof (after_guard_inv be env evs) as G. unfold after in G.
    rewrite E in G.
    assert (List.length (awaiting (run be m0 l0 (loop (program env)) evs))
            <= 1)%nat
      by (destruct G as [[_ ->] | [_ [c ->]]]; simpl; lia).
    simpl in B3. lia.
  - rewrite S0. lia.
Qed.

(** X17: once the capture of a cycle has settled, a second settlement
    for the same cycle (the callback called twice, or a throw after the
    callback) changes nothing. *)
Theorem X17_second_settlement_ignored (env : startup model)
  (evs : list (event buffer)) (c : nat) (outcome outcome' : capture buffer)
  (now now' : string) :
  after be (program env)
    (evs ++ [Settled c outcome now; Settled c outcome' now'])
  = after be (program env) (evs ++ [Settled c outcome now]).
Proof.
  destruct (interval (program env)) as [[[m0 l0] ms]|] eqn:E.
  - change (evs ++ [Settled c outcome now; Settled c outcome' now'])
      with (evs ++ [Settled c outcome now] ++ [Settled c outcome' now']).
    rewrite app_assoc.
    rewrite (after_snoc be (program env) m0 l0 ms _ _ E).
    set (s1 := after be (program env) (evs ++ [Settled c outcome now])).
    assert (H : existsb (Nat.eqb c) (awaiting s1) = false).
    { unfold s1. rewrite (after_snoc be (program env) m0 l0 ms _ _ E).
      set (s := after be (program env) evs).
      pose proof (after_guard_inv be env evs) as G. fold s in G.
      unfold step.
      destruct (existsb (Nat.eqb c) (awaiting s)) eqn:Ec; [|exact Ec].
      destruct G as [[_ Ha] | [_ [c' Ha]]]; [rewrite Ha in Ec; discriminate|].
      destruct (awaiting_one_resume c c' s Ha Ec) as [-> Hres].
      destruct (finish_fields be m0 l0 (captureFrame outcome) now (resume c' s))
        as (_ & F2 & _).
      cbv zeta in F2. rewrite F2, Hres. reflexivity. }
    unfold step. rewrite H. reflexivity.
  - rewrite !(after_none be (program env) _ E). reflexivity.
Qed.

End Accounting.

(** ** The further properties at concrete inputs *)

(** X2 at the scores 0.5, NaN. *)
Lemma X2_witness :
  report rps_labels nan_scores "2024-01-01T00:00:05.000Z"
  = Ok ("[" ++ "2024-01-01T00:00:05.000Z" ++ "] class_-1 (NaN%) | scores="
        ++ scores_text nan_scores)%string.
Proof.
  apply (X2_nan_score_report [VStr "rock"; VStr "paper"; VStr "scissors"]
           nan_scores "2024-01-01T00:00:05.000Z").
  exists NaN. split; [vm_compute; right; left; reflexivity | reflexivity].
Defined.

(** X3 at the labels rock, paper, scissors and an index beyond them. *)
Lemma X3_witness : nullish (VStr "class_7") = false.
Proof.
  apply (X3_label_never_nullish rps_labels 7 (VStr "class_7")). reflexivity.
Defined.

(** X4 at metadata whose [labels] is [null]. *)
Lemma X4_witness :
  VNull <> VUndefined
  /\ (forall topIdx : Z, is_throw (label_of VNull topIdx) <-> VNull = VNull).
Proof.
  apply (X4_loaded_labels_throw_iff_null null_labels_startup tt VNull).
  reflexivity.
Defined.

(** X6 at metadata that is a bare array of names. *)
Lemma X6_witness : loadModelAndLabels bare_array_startup = Ok (tt, VArr []).
Proof.
  apply (X6_non_object_metadata_gives_no_labels bare_array_startup tt
           bare_array_metadata (VArr [VStr "rock"; VStr "paper"]));
    try reflexivity.
  intros props. discriminate.
Defined.

(** X7 at a backend that numbers its tensors by stage. *)
Lemma X7_witness :
  exists image resized normalized batched logits,
    Tf.tf_node_decodeImage (staged_backend rps_scores) tt 3 = Ok image
    /\ Tf.tf_image_resizeBilinear (staged_backend rps_scores) image (224, 224)
       = Ok resized
    /\ Tf.tensor_div (staged_backend rps_scores) resized 255 = Ok normalized
    /\ Tf.tensor_expandDims (staged_backend rps_scores) normalized 0
       = Ok batched
    /\ Tf.model_predict (staged_backend rps_scores) tt batched = Ok logits
    /\ Tf.tensor_dataSync (staged_backend rps_scores) logits = Ok rps_scores
    /\ List.length (fst (Tf.predict (staged_backend rps_scores) tt tt []))
       = 6%nat.
Proof.
  apply (X7_predict_success_stages (staged_backend rps_scores) tt tt
           (fst (Tf.predict (staged_backend rps_scores) tt tt []))
           rps_scores).
  reflexivity.
Defined.

(** X8 at the same backend: the model runs on the tensor of stage 4. *)
Lemma X8_witness :
  tt = tt
  /\ exists image resized normalized,
       Tf.tf_node_decodeImage (staged_backend rps_scores) tt 3 = Ok image
       /\ Tf.tf_image_resizeBilinear (staged_backend rps_scores) image
            (224, 224) = Ok resized
       /\ Tf.tensor_div (staged_backend rps_scores) resized 255 = Ok normalized
       /\ Tf.tensor_expandDims (staged_backend rps_scores) normalized 0
          = Ok 4%nat.
Proof.
  apply (X8_model_runs_only_on_prepared_frame (staged_backend rps_scores)
           tt tt tt 4%nat).
  simpl. do 4 right. left. reflexivity.
Defined.

(** X9 at the metadata with the labels rock, paper, scissors. *)
Lemma X9_witness :
  let p := program rps_startup in
  interval p = Some (tt, rps_labels, 5000)
  /\ stdout (loop p)
     = ["Model loaded. Capturing from webcam every 5 seconds..."%string]
  /\ stderr (loop p) = []
  /\ running (loop p) = false
  /\ exit_status p = None.
Proof.
  apply (X9_startup_success rps_startup tt rps_labels); reflexivity.
Defined.

(** X10 on a machine without a webcam. *)
Lemma X10_witness :
  let p := program no_webcam_startup in
  interval p = None
  /\ stderr (loop p) = [[VStr "Failed to start:"; Error "No webcam found"]]
  /\ stdout (loop p) = []
  /\ exit_status p = Some 0.
Proof.
  apply (X10_webcam_failure_is_startup_failure no_webcam_startup tt rps_labels
           (Error "No webcam found")); reflexivity.
Defined.


(** X12 at a callback that reports a busy camera. *)
Lemma X12_witness :
  let be := staged_backend rps_scores in
  let p := program rps_startup in
  let s := after be p [Tick] in
  let s' :=
    after be p ([Tick] ++ [Settled 0 (Called (Error "Camera busy") tt)
                             "2024-01-01T00:00:05.000Z"]) in
  exists shown,
    shown_error (Error "Camera busy") = Ok shown
    /\ stderr s' = stderr s ++ [[VStr "Capture/predict error:"; shown]]
    /\ stdout s' = stdout s
    /\ unhandled s' = unhandled s
    /\ running s' = false.
Proof.
  apply (X12_callback_error_always_logged (staged_backend rps_scores)
           rps_startup tt rps_labels CAPTURE_MS [Tick] 0%nat
           (Error "Camera busy") tt "2024-01-01T00:00:05.000Z").
  - reflexivity.
  - simpl. left. reflexivity.
  - reflexivity.
Defined.

(** X13 at a model that throws [null]. *)
Lemma X13_witness :
  let be := null_throwing_backend in
  let p := program rps_startup in
  let s := after be p [Tick] in
  let s' :=
    after be p ([Tick] ++ [Settled 0 (Called VNull tt)
                             "2024-01-01T00:00:05.000Z"]) in
  stderr s' = stderr s
  /\ stdout s' = stdout s
  /\ (exists reason, unhandled s' = unhandled s ++ [reason])
  /\ running s' = false
  /\ awaiting s' = [].
Proof.
  apply (X13_nullish_throw_escapes_catch null_throwing_backend rps_startup tt
           rps_labels CAPTURE_MS [Tick] 0%nat (Called VNull tt)
           "2024-01-01T00:00:05.000Z" VNull).
  - reflexivity.
  - simpl. left. reflexivity.
  - right. exists tt. split; reflexivity.
  - reflexivity.
Defined.

(** X14 at metadata whose [labels] is [null]. *)
Lemma X14_witness :
  let be := staged_backend rps_scores in
  let p := program null_labels_startup in
  let s := after be p [Tick] in
  let s' :=
    after be p ([Tick] ++ [Settled 0 (Called VNull tt)
                             "2024-01-01T00:00:05.000Z"]) in
  (exists msg,
      stderr s' = stderr s ++ [[VStr "Capture/predict error:"; VStr msg]])
  /\ stdout s' = stdout s
  /\ unhandled s' = unhandled s
  /\ running s' = false.
Proof.
  apply (X14_null_labels_fail_every_cycle (staged_backend rps_scores)
           null_labels_startup tt CAPTURE_MS [Tick] 0%nat VNull tt
           "2024-01-01T00:00:05.000Z" rps_scores).
  - reflexivity.
  - simpl. left. reflexivity.
  - reflexivity.
  - reflexivity.
Defined.
